(** * Car damage estimator backend: the response-normalization layer

    A shallow embedding of [backend/main.py], [backend/gemini_client.py]
    and [backend/database.py], and the properties of the numeric
    extractor, the shape normalizer, the decode step, the [/analyze]
    handler and the [/history] listing.

    Conventions of the embedding.
    - A Python object that [json.loads] can produce is a [value]; a [dict]
      is an association list in insertion order, looked up by key.
    - A Python [str] is a sequence of 8-bit characters (code points below
      256); among those, the only characters matched by [\d] are 0-9.
    - The text of an int is its decimal digits, whatever its size: the
      limit of the interpreter on this conversion (ValueError past 4300
      digits) is not followed; see [ints_convertible].
    - A Python [float] is an IEEE-754 binary64 number ([spec_float] with
      precision 53 and maximal exponent 1024), rounded to nearest even.
    - A call that may raise returns a [result]; [try]/[except] is
      [try_except].
    - Three functions of the interpreter are variables of the model:
      [json.loads], the [repr] of a float and the [repr] of a str.
    - What a collaborator answers (the upload, the file system, the
      model client, the clock, the commit and the refresh of the session)
      comes with the request, as the outcome of each call. *)

From Stdlib Require Import ZArith List String Ascii Bool Lia.
From Stdlib Require Import SpecFloat DecimalString Permutation Sorted.
Import ListNotations.
Local Open Scope string_scope.
Local Open Scope Z_scope.
Set Warnings "-register-all".

(** ** Exceptions and results *)

Inductive exn : Type :=
| TypeError (msg : string)
| OverflowError (msg : string)
| ValueError (msg : string)
| JSONDecodeError (msg : string)
| RuntimeFailure (cls : string) (msg : string).

(** [str(e)] *)
Definition str_exn (e : exn) : string :=
  match e with
  | TypeError m | OverflowError m | ValueError m | JSONDecodeError m => m
  | RuntimeFailure _ m => m
  end.

Inductive result (A : Type) : Type :=
| Ok (a : A)
| Raise (e : exn).
Arguments Ok {A} a.
Arguments Raise {A} e.

Definition bind {A B : Type} (r : result A) (k : A -> result B) : result B :=
  match r with
  | Ok a => k a
  | Raise e => Raise e
  end.

Notation "x <- r ;; k" := (bind r (fun x => k))
  (at level 61, r at next level, right associativity).

(** [try: body  except: handler] with a bare [except]. *)
Definition try_except {A : Type} (body : result A) (handler : result A) : result A :=
  match body with
  | Ok a => Ok a
  | Raise _ => handler
  end.

Fixpoint mapM {A B : Type} (f : A -> result B) (l : list A) : result (list B) :=
  match l with
  | [] => Ok []
  | a :: l' => b <- f a ;; bs <- mapM f l' ;; Ok (b :: bs)
  end.

(** ** Floats: binary64 *)

Module PyFloat.

Definition float := spec_float.

Definition prec : Z := 53.
Definition emax : Z := 1024.

Definition add : float -> float -> float := SFadd prec emax.
Definition div : float -> float -> float := SFdiv prec emax.
Definition abs : float -> float := SFabs.

Definition zero : float := S754_zero false.

(** The float nearest to an integer (an infinity past the range). *)
Definition of_Z (z : Z) : float := binary_normalize prec emax z 0 false.

(** [float(n)] for an [int]: OverflowError past the range. *)
Definition of_int (z : Z) : result float :=
  match of_Z z with
  | S754_infinity _ => Raise (OverflowError "int too large to convert to float")
  | f => Ok f
  end.

(** The float nearest to [n / 10^k] for [n >= 0]: correctly rounded, as
    [float] of a decimal literal is. *)
Definition of_decimal (n : Z) (k : nat) : float :=
  match n with
  | Zpos p => div (S754_finite false p 0)
                  (S754_finite false (Z.to_pos (10 ^ Z.of_nat k)) 0)
  | _ => zero
  end.

(** [x >= 0.0] *)
Definition nonneg (x : float) : bool :=
  match SFcompare x zero with
  | Some Eq | Some Gt => true
  | _ => false
  end.

(** [bool(x)]: a zero of either sign is falsy, NaN is truthy. *)
Definition truthy (x : float) : bool :=
  match x with
  | S754_zero _ => false
  | _ => true
  end.

End PyFloat.

(** ** Python objects *)

Inductive value : Type :=
| VNone
| VBool (b : bool)
| VInt (z : Z)
| VFloat (f : PyFloat.float)
| VStr (s : string)
| VList (l : list value)
| VDict (d : list (string * value)).

Definition dict := list (string * value).

(** [bool(v)] *)
Definition truthy (v : value) : bool :=
  match v with
  | VNone => false
  | VBool b => b
  | VInt z => negb (z =? 0)
  | VFloat f => PyFloat.truthy f
  | VStr s => negb (s =? "")%string
  | VList l => match l with [] => false | _ => true end
  | VDict d => match d with [] => false | _ => true end
  end.

(** [a or b] *)
Definition py_or (a b : value) : value := if truthy a then a else b.
Infix "|||" := py_or (at level 50, left associativity).

(** [d.get(k)]: [None] when the key is absent. *)
Fixpoint get (d : dict) (k : string) : value :=
  match d with
  | [] => VNone
  | (k', v) :: d' => if (k' =? k)%string then v else get d' k
  end.

(** The dict without the key [k]. *)
Fixpoint remove_key (k : string) (d : dict) : dict :=
  match d with
  | [] => []
  | (k', v) :: d' =>
      if (k' =? k)%string then remove_key k d' else (k', v) :: remove_key k d'
  end.

Definition keys (d : dict) : list string := map fst d.

(** [d[k] = v]: an existing key keeps its place. *)
Fixpoint set_item (d : dict) (k : string) (v : value) : dict :=
  match d with
  | [] => [(k, v)]
  | (k', v') :: d' =>
      if (k' =? k)%string then (k, v) :: d' else (k', v') :: set_item d' k v
  end.

(** [type(v).__name__] *)
Definition type_name (v : value) : string :=
  match v with
  | VNone => "NoneType"
  | VBool _ => "bool"
  | VInt _ => "int"
  | VFloat _ => "float"
  | VStr _ => "str"
  | VList _ => "list"
  | VDict _ => "dict"
  end.

Definition str_of_nat (n : nat) : string := NilZero.string_of_uint (Nat.to_uint n).

(** The decimal digits of an int, as [str] gives them.  An interpreter
    with a limit on this conversion raises ValueError past 4300 digits;
    [json.loads] stands under the same limit and returns no such int.  The
    model gives every int its digits: what it says of the text of an int
    holds of the ints within the limit, see [ints_convertible]. *)
Definition str_of_Z (z : Z) : string := NilZero.string_of_int (Z.to_int z).

Section Str.

(** [repr] of a float (the shortest decimal that reads back) and of a str
    (quoting and escapes) are the interpreter's. *)
Variable repr_float : PyFloat.float -> string.
Variable repr_str : string -> string.

Fixpoint repr (v : value) : string :=
  match v with
  | VNone => "None"
  | VBool true => "True"
  | VBool false => "False"
  | VInt z => str_of_Z z
  | VFloat f => repr_float f
  | VStr s => repr_str s
  | VList l => "[" ++ concat ", " (map repr l) ++ "]"
  | VDict d =>
      "{" ++ concat ", " (map (fun kv => repr_str (fst kv) ++ ": " ++ repr (snd kv)) d) ++ "}"
  end.

(** [str(v)] *)
Definition str (v : value) : string :=
  match v with
  | VStr s => s
  | _ => repr v
  end.

End Str.

(** [sep.join(items)]: every item must be a str. *)
Fixpoint join_items (i : nat) (items : list value) : result (list string) :=
  match items with
  | [] => Ok []
  | VStr s :: rest => ss <- join_items (S i) rest ;; Ok (s :: ss)
  | v :: _ =>
      Raise (TypeError ("sequence item " ++ str_of_nat i ++ ": expected str instance, "
                        ++ type_name v ++ " found"))
  end.

Definition join (sep : string) (items : list value) : result string :=
  ss <- join_items 0 items ;; Ok (concat sep ss).

Definition isdigit (c : ascii) : bool :=
  ((48 <=? nat_of_ascii c) && (nat_of_ascii c <=? 57))%nat.

(** The longest prefix of digits, and what follows it. *)
Fixpoint span_digits (s : string) : string * string :=
  match s with
  | EmptyString => (EmptyString, EmptyString)
  | String c r =>
      if isdigit c
      then let (d, t) := span_digits r in (String c d, t)
      else (EmptyString, s)
  end.

Fixpoint digits_value (acc : Z) (s : string) : Z :=
  match s with
  | EmptyString => acc
  | String c r => digits_value (10 * acc + (Z.of_nat (nat_of_ascii c) - 48)) r
  end.

(** [float(s)] of a str, on the spellings the numeric pattern can match:
    digits, optionally followed by a point and digits.  The other spellings
    Python reads (signs, exponents, blanks, inf, nan) never reach it in this
    program, see [float_of_match_ok]; the model leaves them as ValueError. *)
Definition float_of_str (s : string) : result PyFloat.float :=
  let could_not_convert := ValueError "could not convert string to float" in
  match span_digits s with
  | (EmptyString, _) => Raise could_not_convert
  | (d1, EmptyString) => Ok (PyFloat.of_decimal (digits_value 0 d1) 0)
  | (d1, String "." r) =>
      match span_digits r with
      | (EmptyString, _) => Raise could_not_convert
      | (d2, EmptyString) =>
          Ok (PyFloat.of_decimal (digits_value 0 (d1 ++ d2)) (length d2))
      | _ => Raise could_not_convert
      end
  | _ => Raise could_not_convert
  end.

(** [float(x)] of a number. *)
Definition float_of_number (v : value) : result PyFloat.float :=
  match v with
  | VBool b => Ok (PyFloat.of_Z (if b then 1 else 0))
  | VInt z => PyFloat.of_int z
  | VFloat f => Ok f
  | _ => Raise (TypeError "float() argument must be a string or a real number")
  end.

(** [s.replace(c, "")] for a one-character [c]. *)
Fixpoint remove_char (c : ascii) (s : string) : string :=
  match s with
  | EmptyString => EmptyString
  | String a r => if Ascii.eqb a c then remove_char c r else String a (remove_char c r)
  end.

(** ** The two regular expressions *)

Module re.

(** A match of [\d+(?:\.\d+)?] at the very start of [s], with what follows
    it: the digits are taken greedily, then a point with its digits when
    at least one digit follows the point. *)
Definition match_number (s : string) : option (string * string) :=
  match span_digits s with
  | (EmptyString, _) => None
  | (d1, String "." r2 as r1) =>
      match span_digits r2 with
      | (EmptyString, _) => Some (d1, r1)
      | (d2, r3) => Some (d1 ++ "." ++ d2, r3)
      end
  | (d1, r1) => Some (d1, r1)
  end.

(** [re.findall(r"\d+(?:\.\d+)?", s)]: the matches from left to right, the
    scan resuming right after each match.  [skip] counts the characters of
    the last match that are still to be stepped over. *)
Fixpoint findall_number_from (skip : nat) (s : string) : list string :=
  match s with
  | EmptyString => []
  | String _ r =>
      match skip with
      | S k => findall_number_from k r
      | O =>
          match match_number s with
          | Some (m, _) => m :: findall_number_from (length m - 1) r
          | None => findall_number_from 0 r
          end
      end
  end.

Definition findall_number (s : string) : list string := findall_number_from 0 s.

(** The suffix of [s] that starts at its first opening brace. *)
Fixpoint from_first_open (s : string) : option string :=
  match s with
  | EmptyString => None
  | String c r => if Ascii.eqb c "{" then Some s else from_first_open r
  end.

(** The longest prefix of [s] that ends with a closing brace. *)
Fixpoint upto_last_close (s : string) : option string :=
  match s with
  | EmptyString => None
  | String c r =>
      match upto_last_close r with
      | Some p => Some (String c p)
      | None => if Ascii.eqb c "}" then Some (String c EmptyString) else None
      end
  end.

(** [re.search(r"\{[\s\S]*\}", text)]: the group 0 of the match. *)
Definition search_braces (text : string) : option string :=
  match from_first_open text with
  | Some (String c r) => option_map (String c) (upto_last_close r)
  | _ => None
  end.

End re.

(** ** backend/database.py *)

Module database.

(** A naive [datetime]; two of them compare field by field. *)
Record datetime : Type := {
  year : Z; month : Z; day : Z;
  hour : Z; minute : Z; second : Z; microsecond : Z }.

Definition fields (t : datetime) : list Z :=
  [year t; month t; day t; hour t; minute t; second t; microsecond t].

Fixpoint lex_compare (a b : list Z) : comparison :=
  match a, b with
  | [], [] => Eq
  | [], _ :: _ => Lt
  | _ :: _, [] => Gt
  | x :: a', y :: b' =>
      match x ?= y with
      | Eq => lex_compare a' b'
      | c => c
      end
  end.

Definition compare (s t : datetime) : comparison := lex_compare (fields s) (fields t).
Definition ltb (s t : datetime) : bool :=
  match compare s t with Lt => true | _ => false end.
Definition leb (s t : datetime) : bool :=
  match compare s t with Gt => false | _ => true end.

(** The decimal digits of [z], padded with zeros on the left to [width]. *)
Fixpoint zeros (n : nat) : string :=
  match n with
  | O => EmptyString
  | S n' => String "0" (zeros n')
  end.

Definition pad (width : nat) (z : Z) : string :=
  let s := str_of_Z z in zeros (width - length s) ++ s.

(** [t.isoformat()] *)
Definition isoformat (t : datetime) : string :=
  pad 4 (year t) ++ "-" ++ pad 2 (month t) ++ "-" ++ pad 2 (day t) ++ "T"
  ++ pad 2 (hour t) ++ ":" ++ pad 2 (minute t) ++ ":" ++ pad 2 (second t)
  ++ (if microsecond t =? 0 then "" else "." ++ pad 6 (microsecond t)).

(** A row of the table [analysis].  [image_path], [damage_type] and
    [location] are String columns: what they hold, and what a query
    returns, is text. *)
Record Analysis : Type := {
  id : Z;
  image_path : string;
  damage_type : string;
  location : string;
  cost_inr : PyFloat.float;
  cost_usd : PyFloat.float;
  cost_yen : PyFloat.float;
  created_at : datetime }.

(** The table, oldest insertion first. *)
Definition table := list Analysis.

(** The integer primary key of the next row: one more than the largest. *)
Definition next_id (t : table) : Z := 1 + fold_right Z.max 0 (map id t).

(** [db.add(entry); db.commit()]: the engine assigns [id], and [created_at]
    from the column default [datetime.utcnow]. *)
Definition insert (t : table) (utcnow : datetime)
    (entry : Z -> datetime -> Analysis) : table :=
  (t ++ [entry (next_id t) utcnow])%list.

(** [ORDER BY created_at DESC]: rows with the same timestamp keep the
    order of the table. *)
Fixpoint insert_desc (r : Analysis) (l : list Analysis) : list Analysis :=
  match l with
  | [] => [r]
  | x :: l' =>
      if leb (created_at x) (created_at r)
      then r :: x :: l'
      else x :: insert_desc r l'
  end.

Definition order_by_created_at_desc (t : table) : list Analysis :=
  fold_right insert_desc [] t.

End database.

(** ** backend/gemini_client.py *)

Module gemini_client.

Section Client.

(** [json.loads], which raises on a text that is not JSON. *)
Variable json_loads : string -> result value.

Definition raw_output (text : string) : value := VDict [("raw_output", VStr text)].

(** [response_text] is the outcome of the model call up to [response.text]. *)
Definition analyze_damage_bytes (response_text : result string) : result value :=
  text <- response_text ;;
  try_except (json_loads text)
    match re.search_braces text with
    | Some m => try_except (json_loads m) (Ok (raw_output text))
    | None => Ok (raw_output text)
    end.

(** What [analyze_image] may be handed: a PIL image (with the outcome of
    saving it as PNG into a buffer), a path (with the outcome of reading
    the file), bytes or a bytearray, or an object of another type. *)
Inductive image_arg : Type :=
| PILImage (png : result (list Byte.byte))
| PathStr (path : string) (file : result (list Byte.byte))
| BytesLike (data : list Byte.byte)
| OtherObject.

(** [generate] is the model call on the bytes it is sent, up to
    [response.text]. *)
Definition analyze_image (image : image_arg)
    (generate : list Byte.byte -> result string) : result value :=
  match image with
  | PILImage png =>
      img_bytes <- png ;; analyze_damage_bytes (generate img_bytes)
  | PathStr _ file =>
      img_bytes <- file ;; analyze_damage_bytes (generate img_bytes)
  | BytesLike data => analyze_damage_bytes (generate data)
  | OtherObject =>
      Ok (raw_output "Unsupported image input type to analyze_image()")
  end.

End Client.

End gemini_client.

(** ** backend/main.py *)

Module main.

Definition UPLOAD_DIR : string := "uploads".

(** [sum(values)]: from the integer 0, left to right. *)
Definition sum (values : list PyFloat.float) : PyFloat.float :=
  fold_left PyFloat.add values PyFloat.zero.

(** [values[i]] *)
Definition item (values : list PyFloat.float) (i : nat) : result PyFloat.float :=
  match nth_error values i with
  | Some v => Ok v
  | None => Raise (RuntimeFailure "IndexError" "list index out of range")
  end.

(** The dict [_normalize_analysis] returns, by its keys. *)
Record normalized : Type := {
  damage_type : value;
  location : value;
  cost_inr : PyFloat.float;
  cost_usd : PyFloat.float;
  cost_yen : PyFloat.float;
  notes : value }.

Definition normalized_dict (n : normalized) : dict :=
  [("damage_type", damage_type n);
   ("location", location n);
   ("cost_inr", VFloat (cost_inr n));
   ("cost_usd", VFloat (cost_usd n));
   ("cost_yen", VFloat (cost_yen n));
   ("notes", notes n)].

Section Helpers.

Variable repr_float : PyFloat.float -> string.
Variable repr_str : string -> string.
Local Abbreviation pystr := (str repr_float repr_str).

Definition _parse_number_from_string (s : value) : result PyFloat.float :=
  match s with
  | VNone => Ok PyFloat.zero
  | VBool _ | VInt _ | VFloat _ =>
      f <- float_of_number s ;; Ok (PyFloat.abs f)
  | _ =>
      let s := pystr s in
      let s_clean := remove_char "," s in
      let nums := re.findall_number s_clean in
      match nums with
      | [] => Ok PyFloat.zero
      | _ =>
          try_except
            (values <- mapM float_of_str nums ;;
             if (2 <=? List.length values)%nat
             then Ok (PyFloat.div (sum (firstn 2 values)) (PyFloat.of_Z 2))
             else item values 0)
            (Ok PyFloat.zero)
      end
  end.

(** One round of the loop over [damages]. *)
Definition damage_entry (acc : list value * list value) (d : value)
  : list value * list value :=
  let '(damage_types, locations) := acc in
  let part := match d with VDict e => get e "part" | _ => VNone end in
  let dtype := match d with VDict e => get e "damage_type" | _ => VNone end in
  if truthy dtype && truthy part then
    ((damage_types ++ [VStr (pystr dtype ++ " (" ++ pystr part ++ ")")])%list,
     (locations ++ [part])%list)
  else if truthy dtype then ((damage_types ++ [dtype])%list, locations)
  else if truthy part then (damage_types, (locations ++ [part])%list)
  else (damage_types, locations).

(** The labels and the locations collected from [raw]. *)
Definition collect (raw : dict) : list value * list value :=
  let damages := get raw "damages" ||| get raw "damage" ||| VList [] in
  match damages with
  | VList (d :: ds) => fold_left damage_entry (d :: ds) ([], [])
  | _ =>
      let dtype_field := get raw "damage_type" ||| get raw "damage" in
      let damage_types :=
        if truthy dtype_field then
          match dtype_field with
          | VList l => l
          | _ => [VStr (pystr dtype_field)]
          end
        else [] in
      let loc := get raw "location" ||| get raw "part" in
      let locations :=
        if truthy loc then
          match loc with
          | VList l => l
          | _ => [VStr (pystr loc)]
          end
        else [] in
      (damage_types, locations)
  end.

(** The raw cost of each currency (usd, inr, jpy), read from the nested
    estimate or from the top-level keys. *)
Definition nested_cost_raws (est : dict) : value * value * value :=
  (get est "usd" ||| get est "USD" ||| get est "dollars",
   get est "inr" ||| get est "INR",
   get est "jpy" ||| get est "JPY" ||| get est "yen").

Definition flat_cost_raws (raw : dict) : value * value * value :=
  (get raw "cost_usd" ||| get raw "costUSD" ||| get raw "usd",
   get raw "cost_inr" ||| get raw "costINR" ||| get raw "inr",
   get raw "cost_yen" ||| get raw "costJPY" ||| get raw "jpy").

Definition cost_raws (raw : dict) : value * value * value :=
  let est := get raw "estimated_cost" ||| get raw "estimatedCosts" ||| VDict [] in
  match est with
  | VDict est => nested_cost_raws est
  | _ => flat_cost_raws raw
  end.

Definition _normalize_analysis (raw : value) : result normalized :=
  match raw with
  | VDict raw =>
      let '(damage_types, locations) := collect raw in
      let damage_type_out :=
        match damage_types with
        | [] => get raw "damage_type" ||| VStr "Unknown"
        | _ => VList damage_types
        end in
      let damage_type_out :=
        match damage_type_out with
        | VList [single] => single
        | _ => damage_type_out
        end in
      location_out <-
        match locations with
        | [] => Ok (get raw "location" ||| VStr "")
        | _ => s <- join ", " locations ;; Ok (VStr s)
        end ;;
      let '(usd_raw, inr_raw, jpy_raw) := cost_raws raw in
      cost_usd <- _parse_number_from_string usd_raw ;;
      cost_inr <- _parse_number_from_string inr_raw ;;
      cost_yen <- _parse_number_from_string jpy_raw ;;
      let notes := get raw "notes" ||| get raw "note" ||| get raw "raw_output" ||| VStr "" in
      Ok {| damage_type := damage_type_out;
            location := location_out;
            cost_inr := cost_inr;
            cost_usd := cost_usd;
            cost_yen := cost_yen;
            notes := notes |}
  | _ =>
      Ok {| damage_type := VStr "Unknown";
            location := VStr "";
            cost_inr := PyFloat.zero;
            cost_usd := PyFloat.zero;
            cost_yen := PyFloat.zero;
            notes := VStr (pystr raw) |}
  end.

End Helpers.

(** *** The handler of [/analyze]

    What lies outside the program is given with the request: the outcome
    of each call to a collaborator, in the order the handler makes them. *)
Record request : Type := {
  file_read : result (list Byte.byte);      (* await file.read() *)
  splitext_ext : result string;             (* os.path.splitext(file.filename)[1] *)
  uuid4_hex : string;                       (* uuid.uuid4().hex *)
  file_write : result unit;                 (* open(save_path, "wb"), f.write *)
  file_left : option (list Byte.byte);      (* what a failing open or write leaves under save_path *)
  response_text : result string;            (* the model call, up to response.text *)
  utcnow : database.datetime;               (* the clock, read when the row is written *)
  location_bound : string;                  (* a float or bool location, as the column's text *)
  db_commit : result unit;                  (* db.commit() *)
  db_refresh : result unit                  (* db.refresh(entry) *) }.

(** The upload directory and the table. *)
Record world : Type := {
  uploads : list (string * list Byte.byte);
  analysis : database.table }.

(** A step of the handler: it may change the world, and it may raise. *)
Definition step (A : Type) : Type := world -> world * result A.

Definition ret {A : Type} (a : A) : step A := fun w => (w, Ok a).

Definition lift {A : Type} (r : result A) : step A := fun w => (w, r).

Definition and_then {A B : Type} (m : step A) (k : A -> step B) : step B :=
  fun w =>
    match m w with
    | (w', Ok a) => k a w'
    | (w', Raise e) => (w', Raise e)
    end.

Notation "x <~ m ;; k" := (and_then m (fun x => k))
  (at level 61, m at next level, right associativity).

(** [with open(save_path, "wb") as f: f.write(contents)].  [open] creates
    the file before anything is written, so a failure leaves, under
    [save_path], what had reached the file by then: no file when [open]
    itself raised ([left = None]), the bytes written so far otherwise,
    none of them when the first write raised ([left = Some []]). *)
Definition save_upload (save_path : string) (contents : list Byte.byte)
    (outcome : result unit) (left : option (list Byte.byte)) : step unit :=
  fun w =>
    match outcome with
    | Ok u => ({| uploads := (save_path, contents) :: uploads w;
                  analysis := analysis w |}, Ok u)
    | Raise e =>
        match left with
        | None => (w, Raise e)
        | Some written => ({| uploads := (save_path, written) :: uploads w;
                              analysis := analysis w |}, Raise e)
        end
    end.

(** [db.add(entry); db.commit()]: the row is in the table when the commit
    succeeds, and only then.  The outcome of the commit is the engine's,
    whatever makes it raise: a value it cannot bind or store, a lock. *)
Definition add_commit (entry : Z -> database.datetime -> database.Analysis)
    (now : database.datetime) (outcome : result unit) : step unit :=
  fun w =>
    match outcome with
    | Ok u => ({| uploads := uploads w;
                  analysis := database.insert (analysis w) now entry |}, Ok u)
    | Raise e => (w, Raise e)
    end.

(** The string stored as [damage_type]. *)
Definition damage_str (damage_type : value) : result string :=
  match damage_type with
  | VStr s => Ok s
  | VList l => join ", " l
  | _ => Ok "Unknown"
  end.

(** [float(x or 0.0)] *)
Definition float_or_zero (x : PyFloat.float) : PyFloat.float :=
  if PyFloat.truthy x then x else PyFloat.zero.

(** The integers the engine stores: 64 bits, signed. *)
Definition sqlite_integer (z : Z) : bool := (- 2 ^ 63 <=? z) && (z <? 2 ^ 63).

(** What the String column [location] holds of [location_str]: a str is
    stored as it is, and an int the engine stores is kept as the text of
    its digits (the text 5 for the int 5).  Of a float or a bool the column
    keeps the text the engine converts it to, [bound].  The remaining
    values (an int past 64 bits, a list, a dict) cannot be bound: the
    commit raises and no row is written. *)
Definition stored_location (location_str : value) (bound : string) : string :=
  match location_str with
  | VStr s => s
  | VInt z => if sqlite_integer z then str_of_Z z else bound
  | _ => bound
  end.

(** [Analysis(image_path=..., ...)] as the table holds it, still without
    the columns the engine fills in. *)
Definition new_entry (n : normalized) (uploadedImage damage_str bound : string)
  : Z -> database.datetime -> database.Analysis :=
  fun id created_at =>
    {| database.id := id;
       database.image_path := uploadedImage;
       database.damage_type := damage_str;
       database.location := stored_location (location n ||| VStr "") bound;
       database.cost_inr := float_or_zero (cost_inr n);
       database.cost_usd := float_or_zero (cost_usd n);
       database.cost_yen := float_or_zero (cost_yen n);
       database.created_at := created_at |}.

Definition error_response (e : exn) : value :=
  VDict [("analysis", VDict [("error", VStr (str_exn e))])].

Section Endpoints.

Variable json_loads : string -> result value.
Variable repr_float : PyFloat.float -> string.
Variable repr_str : string -> string.

(** The body of the [try]. *)
Definition analyze_try (rq : request) : step value :=
  contents <~ lift (file_read rq) ;;
  ext0 <~ lift (splitext_ext rq) ;;
  let ext := if (ext0 =? "")%string then ".png" else ext0 in
  let unique_name := uuid4_hex rq ++ ext in
  let save_path := UPLOAD_DIR ++ "/" ++ unique_name in
  _ <~ save_upload save_path contents (file_write rq) (file_left rq) ;;
  raw <~ lift (gemini_client.analyze_damage_bytes json_loads (response_text rq)) ;;
  normalized <~ lift (_normalize_analysis repr_float repr_str raw) ;;
  let uploadedImage := "/uploads/" ++ unique_name in
  damage_str <~ lift (damage_str (damage_type normalized)) ;;
  let entry := new_entry normalized uploadedImage damage_str (location_bound rq) in
  _ <~ add_commit entry (utcnow rq) (db_commit rq) ;;
  _ <~ lift (db_refresh rq) ;;
  ret (VDict [("analysis",
               VDict (set_item (normalized_dict normalized)
                               "uploadedImage" (VStr uploadedImage)))]).

(** [analyze]: the [try] with its [except Exception]. *)
Definition analyze (rq : request) (w : world) : world * value :=
  match analyze_try rq w with
  | (w', Ok response) => (w', response)
  | (w', Raise e) => (w', error_response e)
  end.

End Endpoints.

(** *** The handler of [/history] *)

Definition history_item (r : database.Analysis) : dict :=
  [("id", VInt (database.id r));
   ("image_path", VStr (database.image_path r));
   ("damage_type", VStr (database.damage_type r));
   ("location", VStr (database.location r));
   ("cost_inr", VFloat (database.cost_inr r));
   ("cost_usd", VFloat (database.cost_usd r));
   ("cost_yen", VFloat (database.cost_yen r));
   ("created_at", VStr (database.isoformat (database.created_at r)))].

Definition get_history (db : database.table) : list dict :=
  map history_item (database.order_by_created_at_desc db).

End main.

(** * The terms of the statements *)

(** Neither NaN nor negative: the sign bit is clear. *)
Definition sign_clear (x : PyFloat.float) : Prop :=
  match x with
  | S754_zero false | S754_infinity false | S754_finite false _ _ => True
  | _ => False
  end.

Fixpoint all_digits (s : string) : bool :=
  match s with
  | EmptyString => true
  | String c r => isdigit c && all_digits r
  end.

(** [s] does not start with a digit. *)
Definition no_digit_ahead (s : string) : Prop :=
  match s with
  | EmptyString => True
  | String c _ => isdigit c = false
  end.

(** What the numeric pattern can match: digits, or digits, a point, digits. *)
Definition number_shaped (m : string) : Prop :=
  exists d1, all_digits d1 = true /\ d1 <> EmptyString /\
    (m = d1 \/
     exists d2, all_digits d2 = true /\ d2 <> EmptyString /\ m = d1 ++ "." ++ d2).

(** Two values a fallback chain cannot tell apart: the same value, or two
    falsy ones. *)
Definition falsy_eq (a b : value) : Prop :=
  a = b \/ (truthy a = false /\ truthy b = false).

Fixpoint has_char (c : ascii) (s : string) : bool :=
  match s with
  | EmptyString => false
  | String a r => Ascii.eqb a c || has_char c r
  end.

(** [a] stands before [b] in [l]. *)
Definition listed_before {A : Type} (a b : A) (l : list A) : Prop :=
  exists l1 l2 l3, l = (l1 ++ a :: l2 ++ b :: l3)%list.

(** Newest first: no row is followed by a row with a later timestamp. *)
Definition newest_first (l : list database.Analysis) : Prop :=
  StronglySorted
    (fun a b => database.leb (database.created_at b) (database.created_at a) = true) l.

Definition success_response (n : main.normalized) (uploadedImage : string) : value :=
  VDict [("analysis",
          VDict (set_item (main.normalized_dict n) "uploadedImage" (VStr uploadedImage)))].

Section Terms.

Variable json_loads : string -> result value.
Variable repr_float : PyFloat.float -> string.
Variable repr_str : string -> string.
Local Abbreviation extract := (main._parse_number_from_string repr_float repr_str).
Local Abbreviation normalize := (main._normalize_analysis repr_float repr_str).

(** The three raw costs, each through the extractor. *)
Definition extract3 (raws : value * value * value)
  : result PyFloat.float * result PyFloat.float * result PyFloat.float :=
  let '(usd_raw, inr_raw, jpy_raw) := raws in
  (extract usd_raw, extract inr_raw, extract jpy_raw).

(** Every step before the commit went through: the normalized analysis,
    the reference of the stored image and the damage string are at hand. *)
Definition prepared (rq : main.request) (n : main.normalized)
    (uploadedImage dstr : string) : Prop :=
  exists contents ext0 raw,
    main.file_read rq = Ok contents /\
    main.splitext_ext rq = Ok ext0 /\
    main.file_write rq = Ok tt /\
    gemini_client.analyze_damage_bytes json_loads (main.response_text rq) = Ok raw /\
    normalize raw = Ok n /\
    uploadedImage =
      "/uploads/" ++ main.uuid4_hex rq ++ (if (ext0 =? "")%string then ".png" else ext0) /\
    main.damage_str (main.damage_type n) = Ok dstr.

(** A step up to and including the commit raises [e], every step before
    it having gone through: reading the upload, taking the extension of the
    file name, writing the file, the model client with the decoding, the
    normalizer, the damage string, the commit. *)
Definition raises_before_row (rq : main.request) (e : exn) : Prop :=
  main.file_read rq = Raise e \/
  exists contents, main.file_read rq = Ok contents /\
  (main.splitext_ext rq = Raise e \/
   exists ext0, main.splitext_ext rq = Ok ext0 /\
   (main.file_write rq = Raise e \/
    main.file_write rq = Ok tt /\
    (gemini_client.analyze_damage_bytes json_loads (main.response_text rq) = Raise e \/
     exists raw,
       gemini_client.analyze_damage_bytes json_loads (main.response_text rq) = Ok raw /\
     (normalize raw = Raise e \/
      exists n, normalize raw = Ok n /\
      (main.damage_str (main.damage_type n) = Raise e \/
       exists dstr, main.damage_str (main.damage_type n) = Ok dstr /\
                    main.db_commit rq = Raise e))))).

End Terms.

(** ** Closed examples *)

(** The interpreter's functions at the examples below.  The decoder reads
    the two JSON texts the examples use and rejects every other text; the
    examples hand it, besides those two, only texts that are not JSON, so
    on each text they use it answers as [json.loads] does.  No example
    takes the [repr] of a float or of a str. *)
Definition json_loads_on_examples (text : string) : result value :=
  if (text =? "{}")%string then Ok (VDict [])
  else if (text =? "null")%string then Ok VNone
  else Raise (JSONDecodeError "Expecting value: line 1 column 1 (char 0)").

Definition repr_float_unused : PyFloat.float -> string := fun _ => EmptyString.
Definition repr_str_unused : string -> string := fun _ => EmptyString.

Definition example_clock : database.datetime :=
  {| database.year := 2024; database.month := 5; database.day := 17;
     database.hour := 9; database.minute := 30; database.second := 1;
     database.microsecond := 0 |}.

(** The same day, one second earlier. *)
Definition example_clock_set_back : database.datetime :=
  {| database.year := 2024; database.month := 5; database.day := 17;
     database.hour := 9; database.minute := 30; database.second := 0;
     database.microsecond := 0 |}.

Definition empty_world : main.world :=
  {| main.uploads := []; main.analysis := [] |}.

(** A request on which every collaborator succeeds; the model answers with
    a text that is not JSON. *)
Definition example_request : main.request :=
  {| main.file_read := Ok [];
     main.splitext_ext := Ok ".jpg";
     main.uuid4_hex := "0f8fad5bd9cb469fa16570867728950e";
     main.file_write := Ok tt;
     main.file_left := None;
     main.response_text := Ok "no json here";
     main.utcnow := example_clock;
     main.location_bound := "";
     main.db_commit := Ok tt;
     main.db_refresh := Ok tt |}.

(** The same request, the refresh after the commit failing. *)
Definition request_refresh_fails : main.request :=
  {| main.file_read := Ok [];
     main.splitext_ext := Ok ".jpg";
     main.uuid4_hex := "0f8fad5bd9cb469fa16570867728950e";
     main.file_write := Ok tt;
     main.file_left := None;
     main.response_text := Ok "no json here";
     main.utcnow := example_clock;
     main.location_bound := "";
     main.db_commit := Ok tt;
     main.db_refresh := Raise (RuntimeFailure "OperationalError" "database is locked") |}.

(** The same request, the model client raising. *)
Definition request_model_fails : main.request :=
  {| main.file_read := Ok [];
     main.splitext_ext := Ok ".jpg";
     main.uuid4_hex := "0f8fad5bd9cb469fa16570867728950e";
     main.file_write := Ok tt;
     main.file_left := None;
     main.response_text := Raise (RuntimeFailure "DeadlineExceeded" "504 Deadline Exceeded");
     main.utcnow := example_clock;
     main.location_bound := "";
     main.db_commit := Ok tt;
     main.db_refresh := Ok tt |}.

(** What the normalizer makes of the answer of the example request. *)
Definition example_normalized : main.normalized :=
  {| main.damage_type := VStr "Unknown";
     main.location := VStr "";
     main.cost_inr := PyFloat.zero;
     main.cost_usd := PyFloat.zero;
     main.cost_yen := PyFloat.zero;
     main.notes := VStr "no json here" |}.

Definition example_row (id : Z) (created_at : database.datetime) : database.Analysis :=
  {| database.id := id;
     database.image_path := "/uploads/0f8fad5bd9cb469fa16570867728950e.jpg";
     database.damage_type := "Unknown";
     database.location := "";
     database.cost_inr := PyFloat.zero;
     database.cost_usd := PyFloat.zero;
     database.cost_yen := PyFloat.zero;
     database.created_at := created_at |}.

Definition example_world_after : main.world :=
  {| main.uploads := [("uploads/0f8fad5bd9cb469fa16570867728950e.jpg", [])];
     main.analysis := [example_row 1 example_clock] |}.

Definition example_response : value :=
  VDict [("analysis",
          VDict [("damage_type", VStr "Unknown");
                 ("location", VStr "");
                 ("cost_inr", VFloat PyFloat.zero);
                 ("cost_usd", VFloat PyFloat.zero);
                 ("cost_yen", VFloat PyFloat.zero);
                 ("notes", VStr "no json here");
                 ("uploadedImage", VStr "/uploads/0f8fad5bd9cb469fa16570867728950e.jpg")])].

(** ** Terms of the further properties *)

(** [s] holds one of the characters 0 to 9. *)
Fixpoint has_digit (s : string) : bool :=
  match s with
  | EmptyString => false
  | String c r => isdigit c || has_digit r
  end.

(** Every character of [s] is an ASCII character.  Among these the
    characters 0 to 9 are the only ones the pattern and [float] take for
    digits; beyond ASCII there are others, the digits of other scripts. *)
Fixpoint is_ascii (s : string) : bool :=
  match s with
  | EmptyString => true
  | String c r => (nat_of_ascii c <? 128)%nat && is_ascii r
  end.



(** [x < 0.0] *)
Definition negative (x : PyFloat.float) : bool := SFltb x PyFloat.zero.

(** The keys [_normalize_analysis] looks up in [raw]. *)
Definition read_keys : list string :=
  ["damages"; "damage"; "damage_type"; "location"; "part";
   "estimated_cost"; "estimatedCosts";
   "cost_usd"; "costUSD"; "usd"; "cost_inr"; "costINR"; "inr";
   "cost_yen"; "costJPY"; "jpy";
   "notes"; "note"; "raw_output"].

(** The record of a dict that holds nothing the normalizer can use. *)
Definition nothing_extracted : main.normalized :=
  {| main.damage_type := VStr "Unknown";
     main.location := VStr "";
     main.cost_inr := PyFloat.zero;
     main.cost_usd := PyFloat.zero;
     main.cost_yen := PyFloat.zero;
     main.notes := VStr "" |}.

(** The identifiers of the table are 1, 2, ... in the order of insertion. *)
Definition consecutive_ids (t : database.table) : Prop :=
  map database.id t = map Z.of_nat (seq 1 (List.length t)).

(** Each row of the table has a later timestamp than the rows before it. *)
Definition clock_advances (t : database.table) : Prop :=
  StronglySorted
    (fun a b => database.ltb (database.created_at a) (database.created_at b) = true) t.

(** The JSON shape the prompt asks the model for, with one damage. *)
Definition documented_shape (part dtype usd inr jpy notes : string) : value :=
  VDict [("damages", VList [VDict [("part", VStr part); ("damage_type", VStr dtype)]]);
         ("estimated_cost",
          VDict [("usd", VStr usd); ("inr", VStr inr); ("jpy", VStr jpy)]);
         ("notes", VStr notes)].

Section Serving.

Variable json_loads : string -> result value.
Variable repr_float : PyFloat.float -> string.
Variable repr_str : string -> string.

(** The world after the handler of /analyze has served the requests, one
    after the other. *)
Fixpoint serve (rqs : list main.request) (w : main.world) : main.world :=
  match rqs with
  | [] => w
  | rq :: rest => serve rest (fst (main.analyze json_loads repr_float repr_str rq w))
  end.

End Serving.

(** A quotation mark, and the documented shape as the text of a response. *)
Definition quote : string := String (ascii_of_nat 34) EmptyString.

Definition quoted (s : string) : string := quote ++ s ++ quote.

Definition documented_text : string :=
  "{" ++ quoted "damages" ++ ": [{" ++ quoted "part" ++ ": " ++ quoted "front bumper"
  ++ ", " ++ quoted "damage_type" ++ ": " ++ quoted "dent" ++ "}], "
  ++ quoted "estimated_cost" ++ ": {" ++ quoted "usd" ++ ": " ++ quoted "50-100"
  ++ ", " ++ quoted "inr" ++ ": " ++ quoted "4,000-8,000"
  ++ ", " ++ quoted "jpy" ++ ": " ++ quoted "7500" ++ "}, "
  ++ quoted "notes" ++ ": " ++ quoted "check the frame" ++ "}".

(** The decoder at the examples, with the documented text besides. *)
Definition json_loads_documented (text : string) : result value :=
  if (text =? documented_text)%string
  then Ok (documented_shape "front bumper" "dent" "50-100" "4,000-8,000" "7500"
             "check the frame")
  else json_loads_on_examples text.

(** A file that is not there, and a model client that answers every image
    with the empty object. *)
Definition missing_file : exn :=
  RuntimeFailure "FileNotFoundError" "[Errno 2] No such file or directory: 'car.png'".

Definition answers_empty_object (image_bytes : list Byte.byte) : result string :=
  Ok "{}".

(** An answer whose location is a number, beside a damage without a part. *)
Definition numbered_text : string :=
  "{" ++ quoted "damages" ++ ": [{" ++ quoted "damage_type" ++ ": " ++ quoted "dent"
  ++ "}], " ++ quoted "location" ++ ": 5}".

Definition json_loads_numbered (text : string) : result value :=
  if (text =? numbered_text)%string
  then Ok (VDict [("damages", VList [VDict [("damage_type", VStr "dent")]]);
                  ("location", VInt 5)])
  else json_loads_on_examples text.

Definition numbered_request : main.request :=
  {| main.file_read := Ok [];
     main.splitext_ext := Ok ".jpg";
     main.uuid4_hex := "0f8fad5bd9cb469fa16570867728950e";
     main.file_write := Ok tt;
     main.file_left := None;
     main.response_text := Ok numbered_text;
     main.utcnow := example_clock;
     main.location_bound := "";
     main.db_commit := Ok tt;
     main.db_refresh := Ok tt |}.

Definition numbered_world_after : main.world :=
  {| main.uploads := [("uploads/0f8fad5bd9cb469fa16570867728950e.jpg", [])];
     main.analysis :=
       [{| database.id := 1;
           database.image_path := "/uploads/0f8fad5bd9cb469fa16570867728950e.jpg";
           database.damage_type := "dent";
           database.location := "5";
           database.cost_inr := PyFloat.zero;
           database.cost_usd := PyFloat.zero;
           database.cost_yen := PyFloat.zero;
           database.created_at := example_clock |}] |}.

Definition numbered_response : value :=
  VDict [("analysis",
          VDict [("damage_type", VStr "dent");
                 ("location", VInt 5);
                 ("cost_inr", VFloat PyFloat.zero);
                 ("cost_usd", VFloat PyFloat.zero);
                 ("cost_yen", VFloat PyFloat.zero);
                 ("notes", VStr "");
                 ("uploadedImage", VStr "/uploads/0f8fad5bd9cb469fa16570867728950e.jpg")])].

Definition documented_request : main.request :=
  {| main.file_read := Ok [];
     main.splitext_ext := Ok "";
     main.uuid4_hex := "0f8fad5bd9cb469fa16570867728950e";
     main.file_write := Ok tt;
     main.file_left := None;
     main.response_text := Ok documented_text;
     main.utcnow := example_clock;
     main.location_bound := "";
     main.db_commit := Ok tt;
     main.db_refresh := Ok tt |}.

(** * Properties *)

(** ** The library functions of the model, at known values *)

(** [float] of a decimal literal is the nearest binary64 number: 0.1, 3.14,
    a literal of thirty digits, and the literal one past 2^53, which lies
    halfway and goes to the even neighbour. *)
Lemma float_of_str_known_values :
  float_of_str "0.1" = Ok (S754_finite false 7205759403792794 (-56)) /\
  float_of_str "3.14" = Ok (S754_finite false 7070651414971679 (-51)) /\
  float_of_str "123456789012345678901234567890" =
    Ok (S754_finite false 7017705969039166 44) /\
  float_of_str "9007199254740993" = Ok (S754_finite false 4503599627370496 1) /\
  float_of_str "007.50" = Ok (PyFloat.div (PyFloat.of_Z 15) (PyFloat.of_Z 2)).
Proof. repeat split; vm_compute; reflexivity. Qed.

(** [float] of an int: the largest int that still converts, and the first
    that does not. *)
Lemma of_int_range :
  PyFloat.of_int (2 ^ 1024 - 2 ^ 970 - 1) = Ok (S754_finite false 9007199254740991 971) /\
  PyFloat.of_int (2 ^ 1024 - 2 ^ 970) =
    Raise (OverflowError "int too large to convert to float").
Proof. split; vm_compute; reflexivity. Qed.

Lemma findall_number_known_values :
  re.findall_number "1.5.25 and 3. 4.x 007.50" = ["1.5"; "25"; "3"; "4"; "007.50"] /\
  re.findall_number "12..5 .75 8.9.10.11 3." = ["12"; "5"; "75"; "8.9"; "10.11"; "3"] /\
  re.findall_number "abc" = [].
Proof. repeat split; vm_compute; reflexivity. Qed.

Lemma search_braces_known_values :
  re.search_braces "Sure! {a{b}c} Thanks } x" = Some "{a{b}c} Thanks }" /\
  re.search_braces "} {" = None /\
  re.search_braces "no json here" = None.
Proof. repeat split; vm_compute; reflexivity. Qed.

Lemma isoformat_known_values :
  database.isoformat example_clock = "2024-05-17T09:30:01" /\
  database.isoformat
    {| database.year := 2024; database.month := 1; database.day := 2;
       database.hour := 3; database.minute := 4; database.second := 5;
       database.microsecond := 67 |} = "2024-01-02T03:04:05.000067".
Proof. split; vm_compute; reflexivity. Qed.

(** ** Floats: the sign of a sum, of a quotient and of a decimal literal *)

Lemma sign_clear_nonneg (x : PyFloat.float) :
  sign_clear x -> PyFloat.nonneg x = true.
Proof.
  destruct x as [[|]|[|]| |[|] m e]; simpl; intros H; try contradiction; reflexivity.
Qed.

Lemma iter_pos_invariant {A : Type} (f : A -> A) (P : A -> Prop) :
  (forall x, P x -> P (f x)) ->
  forall (n : positive) (x : A), P x -> P (iter_pos f n x).
Proof.
  intros Hf n; induction n as [n IH|n IH|]; intros x Hx; simpl.
  - apply IH, IH, Hf, Hx.
  - apply IH, IH, Hx.
  - apply Hf, Hx.
Qed.

Lemma shr_1_nonneg (mrs : shr_record) :
  0 <= shr_m mrs -> 0 <= shr_m (shr_1 mrs).
Proof.
  destruct mrs as [m r s]; simpl; intros Hm.
  destruct m as [|[p|p|]|p]; simpl; lia.
Qed.

Lemma shr_fexp_nonneg (m e : Z) (l : location) :
  0 <= m -> 0 <= shr_m (fst (shr_fexp PyFloat.prec PyFloat.emax m e l)).
Proof.
  intros Hm; unfold shr_fexp, shr.
  assert (H0 : 0 <= shr_m (shr_record_of_loc m l))
    by (destruct l as [|[| |]]; simpl; exact Hm).
  destruct (fexp _ _ _ - e) as [|p|p]; simpl; try exact H0.
  apply (iter_pos_invariant shr_1 (fun x => 0 <= shr_m x)); [apply shr_1_nonneg | exact H0].
Qed.

Lemma round_nearest_even_nonneg (m : Z) (l : location) :
  0 <= m -> 0 <= round_nearest_even m l.
Proof.
  intros Hm; destruct l as [|[| |]]; simpl; try lia.
  destruct (Z.even m); lia.
Qed.

Lemma binary_round_aux_sign_clear (m e : Z) (l : location) :
  0 <= m -> sign_clear (binary_round_aux PyFloat.prec PyFloat.emax false m e l).
Proof.
  intros Hm; unfold binary_round_aux.
  pose proof (shr_fexp_nonneg m e l Hm) as H1.
  destruct (shr_fexp PyFloat.prec PyFloat.emax m e l) as [mrs' e'] eqn:E1; simpl in H1.
  pose proof (shr_fexp_nonneg
                (round_nearest_even (shr_m mrs') (loc_of_shr_record mrs')) e' loc_Exact
                (round_nearest_even_nonneg _ _ H1)) as H2.
  destruct (shr_fexp PyFloat.prec PyFloat.emax
              (round_nearest_even (shr_m mrs') (loc_of_shr_record mrs')) e' loc_Exact)
    as [mrs'' e''] eqn:E2; simpl in H2.
  destruct (shr_m mrs'') as [|p|p]; simpl; try exact I; try lia.
  destruct (_ <=? _); exact I.
Qed.

Lemma binary_round_sign_clear (m : positive) (e : Z) :
  sign_clear (binary_round PyFloat.prec PyFloat.emax false m e).
Proof.
  unfold binary_round.
  destruct (shl_align m e _) as [mz ez].
  apply binary_round_aux_sign_clear; lia.
Qed.

Lemma add_sign_clear (x y : PyFloat.float) :
  sign_clear x -> sign_clear y -> sign_clear (PyFloat.add x y).
Proof.
  destruct x as [[|]|[|]| |[|] mx ex], y as [[|]|[|]| |[|] my ey];
    simpl; intros Hx Hy; try contradiction; try exact I.
  unfold binary_normalize; simpl.
  apply binary_round_sign_clear.
Qed.

Lemma div_sign_clear (mx my : positive) (ex ey : Z) :
  sign_clear (PyFloat.div (S754_finite false mx ex) (S754_finite false my ey)).
Proof.
  unfold PyFloat.div, SFdiv, SFdiv_core_binary.
  set (s := ex - ey - _).
  set (m' := match s with Z0 => Zpos mx | Zpos _ => Z.shiftl (Zpos mx) s | Zneg _ => 0 end).
  assert (Hm' : 0 <= m').
  { subst m'; destruct s; try lia. apply Z.shiftl_nonneg; lia. }
  pose proof (Z.div_eucl_eq m' (Zpos my) ltac:(lia)) as Heq.
  pose proof (Z.mod_pos_bound m' (Zpos my) ltac:(lia)) as Hr.
  unfold Z.modulo in Hr.
  destruct (Z.div_eucl m' (Zpos my)) as [q r]; simpl.
  apply binary_round_aux_sign_clear. nia.
Qed.

Lemma div_two_sign_clear (x : PyFloat.float) :
  sign_clear x -> sign_clear (PyFloat.div x (PyFloat.of_Z 2)).
Proof.
  destruct x as [[|]|[|]| |[|] mx ex]; simpl; intros Hx; try contradiction; try exact I.
  change (PyFloat.of_Z 2) with (S754_finite false 4503599627370496 (-51)).
  apply div_sign_clear.
Qed.

Lemma of_decimal_sign_clear (n : Z) (k : nat) : sign_clear (PyFloat.of_decimal n k).
Proof.
  unfold PyFloat.of_decimal; destruct n; simpl; try exact I.
  apply div_sign_clear.
Qed.

(** ** Scanning digits *)

Lemma span_digits_spec (s d r : string) :
  span_digits s = (d, r) ->
  s = d ++ r /\ all_digits d = true /\ no_digit_ahead r.
Proof.
  revert d r; induction s as [|c s IH]; intros d r H; simpl in H.
  - injection H as <- <-. repeat split.
  - destruct (isdigit c) eqn:Hc.
    + destruct (span_digits s) as [d' t] eqn:E.
      injection H as <- <-.
      destruct (IH d' t eq_refl) as (-> & Hd & Hr).
      simpl. rewrite Hc, Hd. repeat split. exact Hr.
    + injection H as <- <-. simpl. repeat split. exact Hc.
Qed.

Lemma span_digits_app (d r : string) :
  all_digits d = true -> no_digit_ahead r -> span_digits (d ++ r) = (d, r).
Proof.
  induction d as [|c d IH]; simpl; intros Hd Hr.
  - destruct r as [|c r]; simpl in *; [reflexivity | now rewrite Hr].
  - apply andb_true_iff in Hd as [Hc Hd].
    now rewrite Hc, (IH Hd Hr).
Qed.

Lemma append_empty_r (s : string) : s ++ EmptyString = s.
Proof. induction s as [|c s IH]; simpl; [reflexivity | now rewrite IH]. Qed.

Lemma span_digits_all (d : string) :
  all_digits d = true -> span_digits d = (d, EmptyString).
Proof.
  intros Hd.
  pose proof (span_digits_app d EmptyString Hd I) as H.
  now rewrite append_empty_r in H.
Qed.

Lemma all_digits_app (a b : string) :
  all_digits (a ++ b) = all_digits a && all_digits b.
Proof.
  induction a as [|c a IH]; simpl; [reflexivity | now rewrite IH, andb_assoc].
Qed.

Lemma match_number_shaped (s m r : string) :
  re.match_number s = Some (m, r) -> number_shaped m.
Proof.
  unfold re.match_number.
  destruct (span_digits s) as [d1 r1] eqn:E1.
  destruct (span_digits_spec _ _ _ E1) as (_ & Hd1 & _).
  destruct d1 as [|c1 d1]; [discriminate|].
  assert (Hne : String c1 d1 <> EmptyString) by discriminate.
  assert (Hplain : Some (String c1 d1, r1) = Some (m, r) -> number_shaped m).
  { intros H; injection H as <- <-. exists (String c1 d1). auto. }
  destruct r1 as [|c r2]; [exact Hplain|].
  destruct (Ascii.eqb_spec c ".") as [->|Hc].
  - destruct (span_digits r2) as [d2 r3] eqn:E2.
    destruct (span_digits_spec _ _ _ E2) as (_ & Hd2 & _).
    destruct d2 as [|c2 d2]; [exact Hplain|].
    intros H; injection H as <- <-.
    exists (String c1 d1). repeat split; auto.
    right. exists (String c2 d2). repeat split; auto. discriminate.
  - intros H. apply Hplain. revert H.
    destruct c as [[|] [|] [|] [|] [|] [|] [|] [|]]; try (intros H; exact H).
    exfalso; apply Hc; reflexivity.
Qed.

Lemma findall_number_shaped (s : string) :
  forall (skip : nat) (m : string),
    In m (re.findall_number_from skip s) -> number_shaped m.
Proof.
  induction s as [|c s IH]; intros skip m H; simpl in H; [contradiction|].
  destruct skip as [|k]; [|exact (IH _ _ H)].
  destruct (re.match_number (String c s)) as [[m' r]|] eqn:E.
  - destruct H as [<-|H]; [exact (match_number_shaped _ _ _ E) | exact (IH _ _ H)].
  - exact (IH _ _ H).
Qed.

(** [float] of a match never raises, and the float it gives is not negative. *)
Lemma float_of_match_ok (m : string) :
  number_shaped m -> exists v, float_of_str m = Ok v /\ sign_clear v.
Proof.
  intros (d1 & Hd1 & Hne1 & [->|(d2 & Hd2 & Hne2 & ->)]); unfold float_of_str.
  - rewrite (span_digits_all _ Hd1).
    destruct d1 as [|c d1]; [contradiction|].
    eexists; split; [reflexivity | apply of_decimal_sign_clear].
  - rewrite (span_digits_app d1 ("." ++ d2) Hd1 eq_refl).
    destruct d1 as [|c d1]; [contradiction|].
    simpl. rewrite (span_digits_all _ Hd2).
    destruct d2 as [|c2 d2]; [contradiction|].
    eexists; split; [reflexivity | apply of_decimal_sign_clear].
Qed.

Lemma mapM_float_of_matches (nums : list string) :
  Forall number_shaped nums ->
  exists values, mapM float_of_str nums = Ok values /\
                 List.length values = List.length nums /\
                 Forall sign_clear values.
Proof.
  induction 1 as [|m nums Hm _ (values & E & Hlen & Hall)]; simpl.
  - exists []. auto.
  - destruct (float_of_match_ok m Hm) as (v & Ev & Hv).
    rewrite Ev, E; simpl. exists (v :: values); simpl. auto.
Qed.

(** ** The numeric extractor *)

Section NumericExtractor.

Variable repr_float : PyFloat.float -> string.
Variable repr_str : string -> string.
Local Abbreviation pystr := (str repr_float repr_str).
Local Abbreviation extract := (main._parse_number_from_string repr_float repr_str).

(** The branch of the extractor for an input that is a str (or is turned
    into one): it never reaches the [except], and gives a float that is
    not negative. *)
Lemma extract_text_branch (text : string) (nums : list string) :
  nums = re.findall_number (remove_char "," text) ->
  exists v,
    match nums with
    | [] => Ok PyFloat.zero
    | _ =>
        try_except
          (values <- mapM float_of_str nums ;;
           if (2 <=? List.length values)%nat
           then Ok (PyFloat.div (main.sum (firstn 2 values)) (PyFloat.of_Z 2))
           else main.item values 0)
          (Ok PyFloat.zero)
    end = Ok v /\ sign_clear v.
Proof.
  intros Hnums.
  assert (Hall : Forall number_shaped nums).
  { apply Forall_forall; intros m Hm; subst nums.
    exact (findall_number_shaped _ _ _ Hm). }
  destruct nums as [|m1 nums']; [exists PyFloat.zero; split; [reflexivity | exact I]|].
  destruct (mapM_float_of_matches _ Hall) as (values & E & Hlen & Hvalues).
  rewrite E; simpl bind.
  destruct values as [|v1 [|v2 values]]; simpl in Hlen; try discriminate.
  - exists v1; split; [reflexivity | now inversion Hvalues].
  - inversion Hvalues as [|? ? Hv1 Hrest]; subst.
    inversion Hrest as [|? ? Hv2 _]; subst.
    eexists; split; [reflexivity|].
    apply div_two_sign_clear.
    change (main.sum (firstn 2 (v1 :: v2 :: values)))
      with (PyFloat.add (PyFloat.add PyFloat.zero v1) v2).
    apply add_sign_clear; [apply add_sign_clear; [exact I | exact Hv1] | exact Hv2].
Qed.


(** On a number the extractor is [abs(float(x))]. *)
Lemma extract_number (v : value) :
  match v with VBool _ | VInt _ | VFloat _ => True | _ => False end ->
  extract v = (f <- float_of_number v ;; Ok (PyFloat.abs f)).
Proof. destruct v; intros H; try contradiction; reflexivity. Qed.

(** C2. The value equations of the numeric extractor: [None] gives 0.0,
    "50-100" gives 75.0, "1,234" gives 1234.0, "abc" gives 0.0, the integer
    -5 gives 5.0 and "10-20-30" gives 15.0; and whenever the text has two
    matches or more, the result is the mean of the first two, whatever
    follows them. *)
Theorem extract_value_equations :
  extract VNone = Ok PyFloat.zero /\
  extract (VStr "50-100") = Ok (PyFloat.of_Z 75) /\
  extract (VStr "1,234") = Ok (PyFloat.of_Z 1234) /\
  extract (VStr "abc") = Ok PyFloat.zero /\
  extract (VInt (-5)) = Ok (PyFloat.of_Z 5) /\
  extract (VStr "10-20-30") = Ok (PyFloat.of_Z 15) /\
  (forall (s m1 m2 : string) (rest : list string),
      re.findall_number (remove_char "," s) = m1 :: m2 :: rest ->
      exists v1 v2,
        float_of_str m1 = Ok v1 /\ float_of_str m2 = Ok v2 /\
        extract (VStr s) =
          Ok (PyFloat.div (PyFloat.add (PyFloat.add PyFloat.zero v1) v2) (PyFloat.of_Z 2))).
Proof.
  do 6 (split; [vm_compute; reflexivity|]).
  intros s m1 m2 rest Hnums.
  assert (Hall : Forall number_shaped (m1 :: m2 :: rest)).
  { apply Forall_forall; intros m Hm; rewrite <- Hnums in Hm.
    exact (findall_number_shaped _ _ _ Hm). }
  inversion Hall as [|? ? H1 Hall']; subst.
  inversion Hall' as [|? ? H2 Hrest]; subst.
  destruct (float_of_match_ok _ H1) as (v1 & E1 & _).
  destruct (float_of_match_ok _ H2) as (v2 & E2 & _).
  destruct (mapM_float_of_matches _ Hrest) as (values & E & _).
  exists v1, v2; repeat split; try assumption.
  unfold main._parse_number_from_string, str.
  rewrite Hnums. simpl mapM. rewrite E1, E2, E. reflexivity.
Qed.

(** C7. The extractor on numbers: an integer past the range of a float
    raises OverflowError instead of giving 0.0, and NaN comes back as NaN,
    which is not greater than or equal to 0.0. *)
Theorem extract_number_failures :
  extract (VInt (10 ^ 400)) = Raise (OverflowError "int too large to convert to float") /\
  extract (VFloat S754_nan) = Ok S754_nan /\
  PyFloat.nonneg S754_nan = false.
Proof. repeat split; vm_compute; reflexivity. Qed.

End NumericExtractor.

(** ** Lookups and falsy values *)

Lemma falsy_eq_refl (a : value) : falsy_eq a a.
Proof. now left. Qed.

Lemma falsy_eq_truthy (a b : value) :
  falsy_eq a b -> truthy a = truthy b.
Proof. intros [->|[Ha Hb]]; congruence. Qed.

Lemma falsy_eq_or (a a' b b' : value) :
  falsy_eq a a' -> falsy_eq b b' -> falsy_eq (a ||| b) (a' ||| b').
Proof.
  intros Ha Hb; unfold py_or.
  rewrite <- (falsy_eq_truthy _ _ Ha).
  destruct (truthy a) eqn:E; [|exact Hb].
  destruct Ha as [->|[Ha _]]; [apply falsy_eq_refl | congruence].
Qed.

(** A chain that ends in a default gives the same value on both sides. *)
Lemma falsy_eq_or_default (a a' c : value) :
  falsy_eq a a' -> a ||| c = a' ||| c.
Proof.
  intros Ha; unfold py_or.
  rewrite <- (falsy_eq_truthy _ _ Ha).
  destruct (truthy a) eqn:E; [|reflexivity].
  destruct Ha as [->|[Ha _]]; [reflexivity | congruence].
Qed.

Lemma falsy_eq_if {A : Type} (a a' : value) (f : value -> A) (c : A) :
  falsy_eq a a' ->
  (if truthy a then f a else c) = (if truthy a' then f a' else c).
Proof.
  intros Ha. rewrite <- (falsy_eq_truthy _ _ Ha).
  destruct (truthy a) eqn:E; [|reflexivity].
  destruct Ha as [->|[Ha _]]; [reflexivity | congruence].
Qed.

Lemma get_remove_key_same (k : string) (d : dict) : get (remove_key k d) k = VNone.
Proof.
  induction d as [|[k' v] d IH]; simpl; [reflexivity|].
  destruct (String.eqb_spec k' k) as [->|Hk]; [exact IH|].
  simpl. destruct (String.eqb_spec k' k); [contradiction | exact IH].
Qed.

Lemma get_remove_key_other (k key : string) (d : dict) :
  k <> key -> get (remove_key k d) key = get d key.
Proof.
  intros Hne; induction d as [|[k' v] d IH]; simpl; [reflexivity|].
  destruct (String.eqb_spec k' k) as [->|Hk].
  - destruct (String.eqb_spec k key); [contradiction | exact IH].
  - simpl. destruct (String.eqb_spec k' key); [reflexivity | exact IH].
Qed.


(** ** The shape normalizer *)

Section ShapeNormalizer.

Variable repr_float : PyFloat.float -> string.
Variable repr_str : string -> string.
Local Abbreviation pystr := (str repr_float repr_str).
Local Abbreviation extract := (main._parse_number_from_string repr_float repr_str).
Local Abbreviation normalize := (main._normalize_analysis repr_float repr_str).
Local Abbreviation collect := (main.collect repr_float repr_str).
Local Abbreviation damage_entry := (main.damage_entry repr_float repr_str).
Local Abbreviation extract3 := (extract3 repr_float repr_str).

Lemma extract_falsy (v : value) : truthy v = false -> extract v = Ok PyFloat.zero.
Proof.
  destruct v as [|[|]|z|f|s|[|x l]|[|x d]]; simpl; intros H; try discriminate; try reflexivity.
  - apply negb_false_iff, Z.eqb_eq in H as ->. reflexivity.
  - destruct f; try discriminate; reflexivity.
  - destruct s; [reflexivity | discriminate].
Qed.

Lemma extract_falsy_eq (a b : value) : falsy_eq a b -> extract a = extract b.
Proof.
  intros [->|[Ha Hb]]; [reflexivity|].
  now rewrite (extract_falsy _ Ha), (extract_falsy _ Hb).
Qed.


Lemma flat_cost_raws_falsy_eq (raw raw' : dict) :
  (forall key, falsy_eq (get raw' key) (get raw key)) ->
  extract3 (main.flat_cost_raws raw') = extract3 (main.flat_cost_raws raw).
Proof.
  intros H; unfold extract3, main.flat_cost_raws.
  f_equal; [f_equal|]; apply extract_falsy_eq; repeat apply falsy_eq_or; apply H.
Qed.

Lemma cost_raws_falsy_eq (raw raw' : dict) :
  (forall key, falsy_eq (get raw' key) (get raw key)) ->
  extract3 (main.cost_raws raw') = extract3 (main.cost_raws raw).
Proof.
  intros H; unfold main.cost_raws.
  rewrite (falsy_eq_or_default _ (get raw "estimated_cost" ||| get raw "estimatedCosts") _)
    by (apply falsy_eq_or; apply H).
  destruct (_ ||| VDict []); try apply (flat_cost_raws_falsy_eq _ _ H); reflexivity.
Qed.


Lemma collect_falsy_eq (raw raw' : dict) :
  (forall key, falsy_eq (get raw' key) (get raw key)) ->
  collect raw' = collect raw.
Proof.
  intros H; unfold main.collect.
  rewrite (falsy_eq_or_default _ (get raw "damages" ||| get raw "damage") _)
    by (apply falsy_eq_or; apply H).
  assert (Hfallback :
    (let dtype_field := get raw' "damage_type" ||| get raw' "damage" in
     let damage_types :=
       if truthy dtype_field
       then match dtype_field with VList l => l | _ => [VStr (pystr dtype_field)] end
       else [] in
     let loc := get raw' "location" ||| get raw' "part" in
     let locations :=
       if truthy loc
       then match loc with VList l => l | _ => [VStr (pystr loc)] end
       else [] in
     (damage_types, locations)) =
    (let dtype_field := get raw "damage_type" ||| get raw "damage" in
     let damage_types :=
       if truthy dtype_field
       then match dtype_field with VList l => l | _ => [VStr (pystr dtype_field)] end
       else [] in
     let loc := get raw "location" ||| get raw "part" in
     let locations :=
       if truthy loc
       then match loc with VList l => l | _ => [VStr (pystr loc)] end
       else [] in
     (damage_types, locations))).
  { cbv zeta. f_equal.
    - apply (falsy_eq_if _ _ (fun x => match x with VList l => l | _ => [VStr (pystr x)] end)).
      apply falsy_eq_or; apply H.
    - apply (falsy_eq_if _ _ (fun x => match x with VList l => l | _ => [VStr (pystr x)] end)).
      apply falsy_eq_or; apply H. }
  destruct (_ ||| VList []) as [| | | | |[|x l]|]; try exact Hfallback; reflexivity.
Qed.

(** The normalizer reads [raw] through fallback chains only: two dicts
    whose lookups differ on falsy values alone normalize alike. *)
Lemma normalize_falsy_eq (raw raw' : dict) :
  (forall key, falsy_eq (get raw' key) (get raw key)) ->
  normalize (VDict raw') = normalize (VDict raw).
Proof.
  intros H; unfold main._normalize_analysis.
  rewrite (collect_falsy_eq _ _ H).
  destruct (collect raw) as [damage_types locations].
  rewrite (falsy_eq_or_default (get raw' "damage_type") (get raw "damage_type")
             (VStr "Unknown")) by apply H.
  rewrite (falsy_eq_or_default (get raw' "location") (get raw "location") (VStr ""))
    by apply H.
  rewrite (falsy_eq_or_default
             (get raw' "notes" ||| get raw' "note" ||| get raw' "raw_output")
             (get raw "notes" ||| get raw "note" ||| get raw "raw_output") (VStr ""))
    by (repeat apply falsy_eq_or; apply H).
  pose proof (cost_raws_falsy_eq _ _ H) as Hc. unfold extract3 in Hc.
  destruct (main.cost_raws raw') as [[u' i'] j'], (main.cost_raws raw) as [[u i] j].
  injection Hc as -> -> ->. reflexivity.
Qed.


(** C3. The top-level cost keys are not read when the nested estimate is
    absent: [{"cost_usd": "50"}] gives cost_usd 0.0, and so does every dict
    without the keys estimated_cost and estimatedCosts.  They are read only
    when the estimate is present and is not a dict. *)
Theorem flat_cost_keys_not_read :
  normalize (VDict [("cost_usd", VStr "50")]) =
    Ok {| main.damage_type := VStr "Unknown";
          main.location := VStr "";
          main.cost_inr := PyFloat.zero;
          main.cost_usd := PyFloat.zero;
          main.cost_yen := PyFloat.zero;
          main.notes := VStr "" |} /\
  (forall raw : dict,
      main.cost_raws (remove_key "estimated_cost" (remove_key "estimatedCosts" raw)) =
      (VNone, VNone, VNone)) /\
  normalize (VDict [("estimated_cost", VStr "n/a"); ("cost_usd", VStr "50")]) =
    Ok {| main.damage_type := VStr "Unknown";
          main.location := VStr "";
          main.cost_inr := PyFloat.zero;
          main.cost_usd := PyFloat.of_Z 50;
          main.cost_yen := PyFloat.zero;
          main.notes := VStr "" |}.
Proof.
  split; [vm_compute; reflexivity|].
  split; [|vm_compute; reflexivity].
  intros raw; unfold main.cost_raws.
  rewrite get_remove_key_same.
  rewrite get_remove_key_other by discriminate.
  rewrite get_remove_key_same. reflexivity.
Qed.

(** C5. The normalizer is not total: a part that is not a str makes the
    join of the locations raise TypeError, an integer cost past the range of
    a float raises OverflowError, and a damage_type given as the list
    [[None]] comes out as [None].  On an input that is not a dict it does
    return the degenerate record. *)
Theorem normalize_raises_or_gives_none :
  normalize (VDict [("damages", VList [VDict [("part", VInt 5)]])]) =
    Raise (TypeError "sequence item 0: expected str instance, int found") /\
  normalize (VDict [("estimated_cost", VDict [("usd", VInt (10 ^ 400))])]) =
    Raise (OverflowError "int too large to convert to float") /\
  normalize (VDict [("damage_type", VList [VNone])]) =
    Ok {| main.damage_type := VNone;
          main.location := VStr "";
          main.cost_inr := PyFloat.zero;
          main.cost_usd := PyFloat.zero;
          main.cost_yen := PyFloat.zero;
          main.notes := VStr "" |} /\
  (forall raw : value,
      match raw with
      | VDict _ => True
      | _ => normalize raw =
               Ok {| main.damage_type := VStr "Unknown";
                     main.location := VStr "";
                     main.cost_inr := PyFloat.zero;
                     main.cost_usd := PyFloat.zero;
                     main.cost_yen := PyFloat.zero;
                     main.notes := VStr (pystr raw) |}
      end).
Proof.
  do 3 (split; [vm_compute; reflexivity|]).
  intros raw; destruct raw; try exact I; reflexivity.
Qed.

Lemma truthy_nonempty_str (s : string) : s <> EmptyString -> truthy (VStr s) = true.
Proof. destruct s; [contradiction | reflexivity]. Qed.

(** C6. One entry of [damages] that carries a part and a damage_type gives
    the bare label, a str and not a list of one item; two such entries give
    the list of the two labels. *)
Theorem damage_labels_collapse :
  (exists n,
      normalize (VDict [("damages",
         VList [VDict [("part", VStr "bumper"); ("damage_type", VStr "dent")]])]) = Ok n /\
      main.damage_type n = VStr "dent (bumper)") /\
  (forall (raw d : dict) (p t : string) (usd_raw inr_raw jpy_raw : value)
          (usd inr yen : PyFloat.float),
      get raw "damages" ||| get raw "damage" ||| VList [] = VList [VDict d] ->
      get d "part" = VStr p -> p <> EmptyString ->
      get d "damage_type" = VStr t -> t <> EmptyString ->
      main.cost_raws raw = (usd_raw, inr_raw, jpy_raw) ->
      extract usd_raw = Ok usd -> extract inr_raw = Ok inr -> extract jpy_raw = Ok yen ->
      normalize (VDict raw) =
        Ok {| main.damage_type := VStr (t ++ " (" ++ p ++ ")");
              main.location := VStr p;
              main.cost_inr := inr;
              main.cost_usd := usd;
              main.cost_yen := yen;
              main.notes :=
                get raw "notes" ||| get raw "note" ||| get raw "raw_output" ||| VStr "" |}) /\
  (forall (raw d1 d2 : dict) (p1 t1 p2 t2 : string) (usd_raw inr_raw jpy_raw : value)
          (usd inr yen : PyFloat.float),
      get raw "damages" ||| get raw "damage" ||| VList [] = VList [VDict d1; VDict d2] ->
      get d1 "part" = VStr p1 -> p1 <> EmptyString ->
      get d1 "damage_type" = VStr t1 -> t1 <> EmptyString ->
      get d2 "part" = VStr p2 -> p2 <> EmptyString ->
      get d2 "damage_type" = VStr t2 -> t2 <> EmptyString ->
      main.cost_raws raw = (usd_raw, inr_raw, jpy_raw) ->
      extract usd_raw = Ok usd -> extract inr_raw = Ok inr -> extract jpy_raw = Ok yen ->
      normalize (VDict raw) =
        Ok {| main.damage_type :=
                VList [VStr (t1 ++ " (" ++ p1 ++ ")"); VStr (t2 ++ " (" ++ p2 ++ ")")];
              main.location := VStr (p1 ++ ", " ++ p2);
              main.cost_inr := inr;
              main.cost_usd := usd;
              main.cost_yen := yen;
              main.notes :=
                get raw "notes" ||| get raw "note" ||| get raw "raw_output" ||| VStr "" |}).
Proof.
  split; [eexists; split; vm_compute; reflexivity|].
  split.
  - intros raw d p t usd_raw inr_raw jpy_raw usd inr yen
      Hdamages Hp Hpne Ht Htne Hraws Husd Hinr Hyen.
    unfold main._normalize_analysis, main.collect.
    rewrite Hdamages; simpl fold_left; unfold main.damage_entry.
    rewrite Hp, Ht, (truthy_nonempty_str _ Hpne), (truthy_nonempty_str _ Htne).
    cbn -[py_or get main.cost_raws main._parse_number_from_string append].
    rewrite Hraws, Husd, Hinr, Hyen. reflexivity.
  - intros raw d1 d2 p1 t1 p2 t2 usd_raw inr_raw jpy_raw usd inr yen
      Hdamages Hp1 Hp1ne Ht1 Ht1ne Hp2 Hp2ne Ht2 Ht2ne Hraws Husd Hinr Hyen.
    unfold main._normalize_analysis, main.collect.
    rewrite Hdamages; simpl fold_left; unfold main.damage_entry.
    rewrite Hp1, Ht1, Hp2, Ht2,
      (truthy_nonempty_str _ Hp1ne), (truthy_nonempty_str _ Ht1ne),
      (truthy_nonempty_str _ Hp2ne), (truthy_nonempty_str _ Ht2ne).
    cbn -[py_or get main.cost_raws main._parse_number_from_string append].
    rewrite Hraws, Husd, Hinr, Hyen. reflexivity.
Qed.

End ShapeNormalizer.

(** ** The decode step *)

Lemma from_first_open_spec (text s : string) :
  re.from_first_open text = Some s <->
  exists pre r, text = pre ++ s /\ s = String "{" r /\ has_char "{" pre = false.
Proof.
  split.
  - revert s; induction text as [|c text IH]; intros s H; simpl in H; [discriminate|].
    destruct (Ascii.eqb_spec c "{") as [->|Hc].
    + injection H as <-. exists EmptyString, text. auto.
    + destruct (IH _ H) as (pre & r & -> & -> & Hpre).
      exists (String c pre), r. simpl.
      destruct (Ascii.eqb_spec c "{"); [contradiction | auto].
  - intros (pre & r & -> & -> & Hpre).
    induction pre as [|c pre IH]; simpl in *; [reflexivity|].
    apply orb_false_iff in Hpre as [Hc Hpre].
    rewrite Hc. exact (IH Hpre).
Qed.

Lemma upto_last_close_none (s : string) :
  has_char "}" s = false -> re.upto_last_close s = None.
Proof.
  induction s as [|c s IH]; simpl; intros H; [reflexivity|].
  apply orb_false_iff in H as [Hc H]. now rewrite (IH H), Hc.
Qed.

Lemma upto_last_close_spec (s p : string) :
  re.upto_last_close s = Some p <->
  exists mid post, s = mid ++ "}" ++ post /\ has_char "}" post = false /\ p = mid ++ "}".
Proof.
  split.
  - revert p; induction s as [|c s IH]; intros p H; simpl in H; [discriminate|].
    destruct (re.upto_last_close s) as [p'|] eqn:E.
    + injection H as <-.
      destruct (IH _ eq_refl) as (mid & post & -> & Hpost & ->).
      exists (String c mid), post. auto.
    + destruct (Ascii.eqb_spec c "}") as [->|Hc]; [|discriminate].
      injection H as <-. exists EmptyString, s. repeat split.
      destruct (has_char "}" s) eqn:Hs; [|reflexivity].
      exfalso. clear IH. induction s as [|a s IHs]; simpl in *; [discriminate|].
      destruct (re.upto_last_close s); [discriminate|].
      destruct (Ascii.eqb a "}"); [discriminate|]. auto.
  - intros (mid & post & -> & Hpost & ->).
    induction mid as [|c mid IH]; simpl.
    + now rewrite (upto_last_close_none _ Hpost).
    + simpl in IH. now rewrite IH.
Qed.

(** The span the decode step tries: from the first opening brace of the
    text to its last closing brace. *)
Lemma search_braces_spec (text span : string) :
  re.search_braces text = Some span <->
  exists pre mid post,
    text = pre ++ "{" ++ mid ++ "}" ++ post /\
    has_char "{" pre = false /\ has_char "}" post = false /\
    span = "{" ++ mid ++ "}".
Proof.
  unfold re.search_braces; split.
  - destruct (re.from_first_open text) as [s|] eqn:E; [|discriminate].
    apply from_first_open_spec in E as (pre & r & -> & -> & Hpre).
    destruct (re.upto_last_close r) as [p|] eqn:E; [|discriminate].
    apply upto_last_close_spec in E as (mid & post & -> & Hpost & ->).
    simpl; intros H; injection H as <-.
    exists pre, mid, post. auto.
  - intros (pre & mid & post & -> & Hpre & Hpost & ->).
    assert (E : re.from_first_open (pre ++ "{" ++ mid ++ "}" ++ post)
                = Some ("{" ++ mid ++ "}" ++ post)).
    { apply from_first_open_spec. exists pre, (mid ++ "}" ++ post). auto. }
    rewrite E; simpl.
    assert (E' : re.upto_last_close (mid ++ "}" ++ post) = Some (mid ++ "}")).
    { apply upto_last_close_spec. exists mid, post. auto. }
    simpl in E'. rewrite E'. reflexivity.
Qed.

Section Decode.

Variable json_loads : string -> result value.
Variable repr_float : PyFloat.float -> string.
Variable repr_str : string -> string.
Local Abbreviation decode :=
  (fun text => gemini_client.analyze_damage_bytes json_loads (Ok text)).
Local Abbreviation normalize := (main._normalize_analysis repr_float repr_str).

(** C4. The decode step always returns, in three stages: the value of the
    whole text when that is JSON; else the value of the span from the first
    opening brace to the last closing brace when there is such a span and
    it is JSON; else the object whose one field raw_output holds the text,
    which the normalizer turns into damage_type "Unknown" with the text as
    notes. *)
Theorem decode_three_stages (text : string) :
  (exists v, decode text = Ok v) /\
  (forall v, json_loads text = Ok v -> decode text = Ok v) /\
  (forall e span v,
      json_loads text = Raise e ->
      re.search_braces text = Some span ->
      json_loads span = Ok v ->
      decode text = Ok v) /\
  (forall e,
      json_loads text = Raise e ->
      re.search_braces text = None \/
      (exists span e', re.search_braces text = Some span /\ json_loads span = Raise e') ->
      decode text = Ok (gemini_client.raw_output text)) /\
  (forall span,
      re.search_braces text = Some span <->
      exists pre mid post,
        text = pre ++ "{" ++ mid ++ "}" ++ post /\
        has_char "{" pre = false /\ has_char "}" post = false /\
        span = "{" ++ mid ++ "}") /\
  normalize (gemini_client.raw_output text) =
    Ok {| main.damage_type := VStr "Unknown";
          main.location := VStr "";
          main.cost_inr := PyFloat.zero;
          main.cost_usd := PyFloat.zero;
          main.cost_yen := PyFloat.zero;
          main.notes := VStr text |}.
Proof.
  unfold gemini_client.analyze_damage_bytes; simpl bind.
  repeat split.
  - destruct (json_loads text) as [v|e]; simpl; [eauto|].
    destruct (re.search_braces text) as [span|]; [|eauto].
    destruct (json_loads span); simpl; eauto.
  - intros v ->. reflexivity.
  - intros e span v -> -> ->. reflexivity.
  - intros e -> [->|(span & e' & -> & ->)]; reflexivity.
  - apply search_braces_spec.
  - apply search_braces_spec.
  - destruct text; reflexivity.
Qed.

End Decode.

(** ** The history listing *)

Lemma lex_compare_antisym (a b : list Z) :
  database.lex_compare b a = CompOpp (database.lex_compare a b).
Proof.
  revert b; induction a as [|x a IH]; intros [|y b]; simpl; try reflexivity.
  rewrite (Z.compare_antisym x y).
  destruct (x ?= y); simpl; [apply IH | reflexivity | reflexivity].
Qed.

Lemma lex_compare_le_trans (a b c : list Z) :
  database.lex_compare a b <> Gt ->
  database.lex_compare b c <> Gt ->
  database.lex_compare a c <> Gt.
Proof.
  revert b c; induction a as [|x a IH]; intros [|y b] [|z c]; simpl;
    try congruence.
  destruct (Z.compare_spec x y), (Z.compare_spec y z), (Z.compare_spec x z);
    try congruence; try lia; subst.
  apply IH.
Qed.

Lemma leb_trans (s t u : database.datetime) :
  database.leb s t = true -> database.leb t u = true -> database.leb s u = true.
Proof.
  unfold database.leb, database.compare; intros Hst Htu.
  pose proof (lex_compare_le_trans (database.fields s) (database.fields t)
                (database.fields u)) as H.
  destruct (database.lex_compare (database.fields s) (database.fields t));
    destruct (database.lex_compare (database.fields t) (database.fields u));
    destruct (database.lex_compare (database.fields s) (database.fields u));
    try reflexivity; try discriminate; exfalso; apply H; congruence.
Qed.

Lemma leb_total (s t : database.datetime) :
  database.leb s t = false -> database.leb t s = true.
Proof.
  unfold database.leb, database.compare.
  rewrite (lex_compare_antisym (database.fields s) (database.fields t)).
  destruct (database.lex_compare (database.fields s) (database.fields t));
    simpl; congruence.
Qed.

Lemma ltb_not_leb (s t : database.datetime) :
  database.ltb s t = true -> database.leb t s = false.
Proof.
  unfold database.ltb, database.leb, database.compare.
  rewrite (lex_compare_antisym (database.fields s) (database.fields t)).
  destruct (database.lex_compare (database.fields s) (database.fields t));
    simpl; congruence.
Qed.

Lemma insert_desc_perm (r : database.Analysis) (l : list database.Analysis) :
  Permutation (database.insert_desc r l) (r :: l).
Proof.
  induction l as [|x l IH]; simpl; [reflexivity|].
  destruct (database.leb _ _); [reflexivity|].
  rewrite IH. apply perm_swap.
Qed.

Lemma order_by_perm (t : database.table) :
  Permutation (database.order_by_created_at_desc t) t.
Proof.
  induction t as [|r t IH]; simpl; [reflexivity|].
  rewrite insert_desc_perm. now apply perm_skip.
Qed.

Lemma insert_desc_sorted (r : database.Analysis) (l : list database.Analysis) :
  newest_first l -> newest_first (database.insert_desc r l).
Proof.
  unfold newest_first.
  induction 1 as [|x l Hl IH Hx]; simpl.
  - constructor; constructor.
  - destruct (database.leb (database.created_at x) (database.created_at r)) eqn:E.
    + constructor; [constructor; assumption|].
      constructor; [exact E|].
      eapply Forall_impl; [|exact Hx].
      intros b Hb. exact (leb_trans _ _ _ Hb E).
    + constructor; [exact IH|].
      rewrite insert_desc_perm.
      constructor; [exact (leb_total _ _ E) | exact Hx].
Qed.

Lemma order_by_sorted (t : database.table) :
  newest_first (database.order_by_created_at_desc t).
Proof.
  induction t as [|r t IH]; simpl; [constructor | now apply insert_desc_sorted].
Qed.

Lemma strongly_sorted_before {A : Type} (R : A -> A -> Prop) (l1 l2 : list A) (x : A) :
  StronglySorted R (l1 ++ x :: l2) -> forall y, In y l1 -> R y x.
Proof.
  induction l1 as [|a l1 IH]; simpl; intros H y Hy; [contradiction|].
  apply StronglySorted_inv in H as [Hs Hall].
  destruct Hy as [<-|Hy]; [|exact (IH Hs y Hy)].
  rewrite Forall_forall in Hall. apply Hall, in_or_app. right; now left.
Qed.

(** In a listing that is newest first, a row comes before every row with
    an earlier timestamp. *)
Lemma newest_first_before (l : list database.Analysis) (r1 r2 : database.Analysis) :
  newest_first l -> In r1 l -> In r2 l ->
  database.ltb (database.created_at r1) (database.created_at r2) = true ->
  listed_before r2 r1 l.
Proof.
  intros Hl H1 H2 Hlt.
  destruct (in_split _ _ H2) as (l1 & rest & ->).
  assert (Hne : r1 <> r2).
  { intros ->. pose proof (ltb_not_leb _ _ Hlt) as H.
    unfold database.ltb, database.leb in *.
    destruct (database.compare _ _); discriminate. }
  assert (Hrest : In r1 rest).
  { apply in_app_or in H1 as [H1|[H1|H1]]; [|congruence|exact H1].
    exfalso.
    pose proof (strongly_sorted_before _ _ _ _ Hl r1 H1) as Hle; simpl in Hle.
    rewrite (ltb_not_leb _ _ Hlt) in Hle. discriminate. }
  destruct (in_split _ _ Hrest) as (l2 & l3 & ->).
  now exists l1, l2, l3.
Qed.

Lemma listed_before_map {A B : Type} (f : A -> B) (a b : A) (l : list A) :
  listed_before a b l -> listed_before (f a) (f b) (map f l).
Proof.
  intros (l1 & l2 & l3 & ->).
  exists (map f l1), (map f l2), (map f l3).
  now rewrite map_app; simpl; rewrite map_app.
Qed.

(** C8. The history lists every row of the table once, newest creation
    timestamp first: a row stands before every row whose timestamp is
    strictly earlier. *)
Theorem history_newest_first (db : database.table) :
  main.get_history db = map main.history_item (database.order_by_created_at_desc db) /\
  Permutation (database.order_by_created_at_desc db) db /\
  List.length (main.get_history db) = List.length db /\
  newest_first (database.order_by_created_at_desc db) /\
  (forall r1 r2 : database.Analysis,
      In r1 db -> In r2 db ->
      database.ltb (database.created_at r1) (database.created_at r2) = true ->
      listed_before (main.history_item r2) (main.history_item r1) (main.get_history db)).
Proof.
  pose proof (order_by_perm db) as Hperm.
  repeat split.
  - exact Hperm.
  - unfold main.get_history. rewrite length_map. now apply Permutation_length.
  - apply order_by_sorted.
  - intros r1 r2 H1 H2 Hlt.
    apply listed_before_map, newest_first_before.
    + apply order_by_sorted.
    + eapply Permutation_in; [symmetry; exact Hperm | exact H1].
    + eapply Permutation_in; [symmetry; exact Hperm | exact H2].
    + exact Hlt.
Qed.

(** ** The handler of /analyze *)

Lemma next_id_above (t : database.table) (r : database.Analysis) :
  In r t -> database.id r < database.next_id t.
Proof.
  unfold database.next_id; induction t as [|x t IH]; cbn [fold_right map In];
    [contradiction|].
  intros [->|H]; [|specialize (IH H)]; lia.
Qed.

Section Handler.

Variable json_loads : string -> result value.
Variable repr_float : PyFloat.float -> string.
Variable repr_str : string -> string.
Local Abbreviation analyze := (main.analyze json_loads repr_float repr_str).
Local Abbreviation analyze_try := (main.analyze_try json_loads repr_float repr_str).
Local Abbreviation normalize := (main._normalize_analysis repr_float repr_str).
Local Abbreviation prepared := (prepared json_loads repr_float repr_str).
Local Abbreviation raises_before_row := (raises_before_row json_loads repr_float repr_str).

(** The run of the [try] when every step up to the commit goes through. *)
Lemma analyze_try_committed (rq : main.request) (w : main.world)
    (contents : list Byte.byte) (ext0 : string) (raw : value)
    (n : main.normalized) (dstr : string) :
  main.file_read rq = Ok contents ->
  main.splitext_ext rq = Ok ext0 ->
  main.file_write rq = Ok tt ->
  gemini_client.analyze_damage_bytes json_loads (main.response_text rq) = Ok raw ->
  normalize raw = Ok n ->
  main.damage_str (main.damage_type n) = Ok dstr ->
  main.db_commit rq = Ok tt ->
  let name := main.uuid4_hex rq ++ (if (ext0 =? "")%string then ".png" else ext0) in
  analyze_try rq w =
    ({| main.uploads := ("uploads/" ++ name, contents) :: main.uploads w;
        main.analysis :=
          database.insert (main.analysis w) (main.utcnow rq)
            (main.new_entry n ("/uploads/" ++ name) dstr (main.location_bound rq)) |},
     match main.db_refresh rq with
     | Ok _ => Ok (success_response n ("/uploads/" ++ name))
     | Raise e => Raise e
     end).
Proof.
  intros H1 H2 H3 H4 H5 H6 H7 name.
  unfold main.analyze_try, main.and_then, main.lift, main.save_upload,
    main.add_commit, main.ret.
  rewrite H1, H2, H3, H4, H5, H6, H7.
  destruct (main.db_refresh rq) as [[]|e]; reflexivity.
Qed.

(** The run of the [try] when a step up to the commit raises: the
    exception of that step, and the table as it was. *)
Lemma analyze_try_raises (rq : main.request) (w : main.world) (e : exn) :
  raises_before_row rq e ->
  exists w', analyze_try rq w = (w', Raise e) /\ main.analysis w' = main.analysis w.
Proof.
  unfold raises_before_row, main.analyze_try, main.and_then, main.lift,
    main.save_upload, main.add_commit, main.ret.
  intros [H|(c & Hc & [H|(x & Hx & [H|(Hw & [H|(raw & Hr & [H|(n & Hn &
            [H|(d & Hd & H)])])])])])];
    repeat match goal with Heq : _ = _ |- _ => rewrite Heq end;
    try (eexists; split; reflexivity).
  destruct (main.file_left rq); eexists; split; reflexivity.
Qed.

(** A request either has a step up to the commit that raises, or gets as
    far as a successful commit. *)
Lemma request_cases (rq : main.request) :
  (exists e, raises_before_row rq e) \/
  (exists n uploadedImage dstr,
      prepared rq n uploadedImage dstr /\ main.db_commit rq = Ok tt).
Proof.
  unfold raises_before_row, prepared.
  destruct (main.file_read rq) as [contents|e] eqn:E1; [|left; exists e; now left].
  destruct (main.splitext_ext rq) as [ext0|e] eqn:E2;
    [|left; exists e; right; eexists; split; [reflexivity|]; now left].
  destruct (main.file_write rq) as [[]|e] eqn:E3;
    [|left; exists e; right; eexists; split; [reflexivity|];
      right; eexists; split; [reflexivity|]; now left].
  destruct (gemini_client.analyze_damage_bytes json_loads (main.response_text rq))
    as [raw|e] eqn:E4;
    [|left; exists e; right; eexists; split; [reflexivity|];
      right; eexists; split; [reflexivity|]; right; split; [reflexivity|]; now left].
  destruct (normalize raw) as [n|e] eqn:E5;
    [|left; exists e; right; eexists; split; [reflexivity|];
      right; eexists; split; [reflexivity|]; right; split; [reflexivity|];
      right; eexists; split; [reflexivity|]; now left].
  destruct (main.damage_str (main.damage_type n)) as [dstr|e] eqn:E6;
    [|left; exists e; right; eexists; split; [reflexivity|];
      right; eexists; split; [reflexivity|]; right; split; [reflexivity|];
      right; eexists; split; [reflexivity|]; right; eexists; split; [exact E5|];
      now left].
  destruct (main.db_commit rq) as [[]|e] eqn:E7;
    [|left; exists e; right; eexists; split; [reflexivity|];
      right; eexists; split; [reflexivity|]; right; split; [reflexivity|];
      right; eexists; split; [reflexivity|]; right; eexists; split; [exact E5|];
      right; eexists; split; [exact E6|reflexivity]].
  right. exists n. eexists. exists dstr. split; [|reflexivity].
  exists contents, ext0, raw. repeat split; eauto.
Qed.

(** The run of the [try] when every step up to the commit goes through,
    in the terms of [prepared]. *)
Lemma analyze_try_prepared (rq : main.request) (w : main.world)
    (n : main.normalized) (uploadedImage dstr : string) :
  prepared rq n uploadedImage dstr ->
  main.db_commit rq = Ok tt ->
  exists w',
    analyze_try rq w =
      (w', match main.db_refresh rq with
           | Ok _ => Ok (success_response n uploadedImage)
           | Raise e => Raise e
           end) /\
    main.analysis w' =
      database.insert (main.analysis w) (main.utcnow rq)
        (main.new_entry n uploadedImage dstr (main.location_bound rq)).
Proof.
  intros (contents & ext0 & raw & E1 & E2 & E3 & E4 & E5 & -> & E6) Hc.
  rewrite (analyze_try_committed rq w _ _ _ _ _ E1 E2 E3 E4 E5 E6 Hc).
  eexists; split; reflexivity.
Qed.

(** The two ways through the [try]: an exception before the table is
    touched, or a committed row followed by the refresh. *)
Lemma analyze_try_cases (rq : main.request) (w : main.world) :
  (exists w' e,
      analyze_try rq w = (w', Raise e) /\ raises_before_row rq e /\
      main.analysis w' = main.analysis w) \/
  (exists w' n uploadedImage dstr,
      prepared rq n uploadedImage dstr /\
      main.db_commit rq = Ok tt /\
      main.analysis w' =
        database.insert (main.analysis w) (main.utcnow rq)
          (main.new_entry n uploadedImage dstr (main.location_bound rq)) /\
      analyze_try rq w =
        (w', match main.db_refresh rq with
             | Ok _ => Ok (success_response n uploadedImage)
             | Raise e => Raise e
             end)).
Proof.
  destruct (request_cases rq) as [(e & He)|(n & img & dstr & Hp & Hc)].
  - left. destruct (analyze_try_raises rq w e He) as (w' & H & Hw).
    exists w', e. auto.
  - right. destruct (analyze_try_prepared rq w n img dstr Hp Hc) as (w' & H & Hw).
    exists w', n, img, dstr. auto.
Qed.

(** C1. [analyze] always returns an object with the one key analysis.
    When a step raises, the payload is the object with the error text of
    that exception, and the table is settled by the step: an exception of a
    step up to and including the commit (reading the upload, the file name,
    writing the file, the model client, the normalizer, the damage string,
    the commit) leaves the table as it was, and an exception of the refresh
    that follows a successful commit leaves the committed row in it. *)
Theorem analyze_contains_exceptions (rq : main.request) (w : main.world) :
  (exists payload, snd (analyze rq w) = VDict [("analysis", payload)]) /\
  (forall w' e,
      analyze_try rq w = (w', Raise e) ->
      analyze rq w = (w', VDict [("analysis", VDict [("error", VStr (str_exn e))])]) /\
      (raises_before_row rq e /\ main.analysis w' = main.analysis w \/
       exists n uploadedImage dstr,
         prepared rq n uploadedImage dstr /\
         main.db_commit rq = Ok tt /\ main.db_refresh rq = Raise e /\
         main.analysis w' =
           (main.analysis w ++
            [main.new_entry n uploadedImage dstr (main.location_bound rq)
               (database.next_id (main.analysis w)) (main.utcnow rq)])%list)) /\
  (forall e,
      raises_before_row rq e ->
      exists w',
        analyze rq w = (w', VDict [("analysis", VDict [("error", VStr (str_exn e))])]) /\
        main.analysis w' = main.analysis w) /\
  (forall n uploadedImage dstr e,
      prepared rq n uploadedImage dstr ->
      main.db_commit rq = Ok tt ->
      main.db_refresh rq = Raise e ->
      exists w',
        analyze rq w = (w', VDict [("analysis", VDict [("error", VStr (str_exn e))])]) /\
        main.analysis w' =
          (main.analysis w ++
           [main.new_entry n uploadedImage dstr (main.location_bound rq)
              (database.next_id (main.analysis w)) (main.utcnow rq)])%list) /\
  (forall e,
      main.response_text rq = Raise e ->
      exists w' e',
        analyze rq w = (w', VDict [("analysis", VDict [("error", VStr (str_exn e'))])]) /\
        main.analysis w' = main.analysis w) /\
  (forall e,
      main.db_commit rq = Raise e ->
      main.analysis (fst (analyze rq w)) = main.analysis w).
Proof.
  pose proof (analyze_try_cases rq w) as Hcases.
  unfold main.analyze.
  split; [|split; [|split; [|split; [|split]]]].
  - destruct Hcases as [(w' & e & -> & _)|(w' & n & img & dstr & _ & _ & _ & ->)].
    + eexists; reflexivity.
    + destruct (main.db_refresh rq); eexists; reflexivity.
  - intros w' e H. rewrite H. split; [reflexivity|].
    destruct Hcases
      as [(w1 & e1 & H1 & Hr & Hw)|(w1 & n & img & dstr & Hp & Hc & Hw & H1)];
      rewrite H1 in H.
    + injection H as <- <-. now left.
    + destruct (main.db_refresh rq) as [u|e1]; [discriminate|].
      injection H as <- <-. right. exists n, img, dstr. auto.
  - intros e He. destruct (analyze_try_raises rq w e He) as (w' & -> & Hw).
    exists w'. now split.
  - intros n img dstr e Hp Hc Hr.
    destruct (analyze_try_prepared rq w n img dstr Hp Hc) as (w' & -> & Hw).
    rewrite Hr. exists w'. now split.
  - intros e He.
    destruct Hcases as [(w' & e' & -> & _ & Hw)|(w' & n & img & dstr & Hp & _)].
    + exists w', e'. now split.
    + destruct Hp as (contents & ext0 & raw & _ & _ & _ & Hraw & _).
      rewrite He in Hraw. discriminate.
  - intros e He.
    destruct Hcases as [(w' & e' & -> & _ & Hw)|(w' & n & img & dstr & _ & Hc & _)].
    + exact Hw.
    + congruence.
Qed.

(** C9. Every row [analyze] writes, whether the refresh after the commit
    succeeds or raises, holds the reference of the image, the damage
    string, the location as the text the column stores (a str as it is) and
    the three costs of the normalized analysis, with an identifier above
    every earlier one and the clock reading of the commit; [analyze] writes
    no other row.  The notes are in the response only: the row has no such
    column and the history no such key. *)
Theorem persisted_record_fields (rq : main.request) (w : main.world) :
  (forall n uploadedImage dstr,
      prepared rq n uploadedImage dstr ->
      main.db_commit rq = Ok tt ->
      exists row : database.Analysis,
        main.analysis (fst (analyze rq w)) = (main.analysis w ++ [row])%list /\
        row = {| database.id := database.next_id (main.analysis w);
                 database.image_path := uploadedImage;
                 database.damage_type := dstr;
                 database.location :=
                   main.stored_location (main.location n ||| VStr "")
                                        (main.location_bound rq);
                 database.cost_inr := main.float_or_zero (main.cost_inr n);
                 database.cost_usd := main.float_or_zero (main.cost_usd n);
                 database.cost_yen := main.float_or_zero (main.cost_yen n);
                 database.created_at := main.utcnow rq |} /\
        main.damage_str (main.damage_type n) = Ok (database.damage_type row) /\
        (forall s, main.location n = VStr s -> database.location row = s) /\
        (forall z, main.location n = VInt z -> z <> 0 -> main.sqlite_integer z = true ->
                   database.location row = str_of_Z z) /\
        (forall r, In r (main.analysis w) -> database.id r < database.id row) /\
        In (main.history_item row)
           (main.get_history (main.analysis (fst (analyze rq w)))) /\
        keys (main.history_item row) =
          ["id"; "image_path"; "damage_type"; "location";
           "cost_inr"; "cost_usd"; "cost_yen"; "created_at"] /\
        (main.db_refresh rq = Ok tt ->
         snd (analyze rq w) = success_response n uploadedImage /\
         get (set_item (main.normalized_dict n) "uploadedImage" (VStr uploadedImage))
             "notes" = main.notes n)) /\
  (main.analysis (fst (analyze rq w)) = main.analysis w \/
   exists n uploadedImage dstr,
     prepared rq n uploadedImage dstr /\ main.db_commit rq = Ok tt).
Proof.
  unfold main.analyze. split.
  - intros n img dstr Hp Hc.
    destruct (analyze_try_prepared rq w n img dstr Hp Hc) as (w' & -> & Hw).
    destruct Hp as (contents & ext0 & raw & _ & _ & _ & _ & _ & _ & Hd).
    assert (Hfst : main.analysis
                     (fst (let (w0, r) :=
                             (w', match main.db_refresh rq with
                                  | Ok _ => Ok (success_response n img)
                                  | Raise e => Raise e
                                  end) in
                           match r with
                           | Ok response => (w0, response)
                           | Raise e => (w0, main.error_response e)
                           end)) = main.analysis w')
      by (destruct (main.db_refresh rq); reflexivity).
    rewrite Hfst, Hw.
    eexists. split; [reflexivity|].
    split; [reflexivity|].
    split; [exact Hd|].
    split.
    { intros s Hs. unfold main.new_entry; cbn [database.location]. rewrite Hs.
      now destruct s. }
    split.
    { intros z Hz Hz0 Hrange. unfold main.new_entry; cbn [database.location].
      rewrite Hz. unfold py_or; cbn [truthy].
      destruct (Z.eqb_spec z 0) as [->|_]; [contradiction|].
      cbn [negb main.stored_location]. now rewrite Hrange. }
    split; [intros r Hr; simpl; now apply next_id_above|].
    split.
    { unfold main.get_history. apply in_map.
      eapply Permutation_in; [symmetry; apply order_by_perm|].
      unfold database.insert. apply in_or_app. right; now left. }
    split; [reflexivity|].
    intros ->. split; reflexivity.
  - destruct (analyze_try_cases rq w)
      as [(w' & e & -> & _ & Hw)|(w' & n & img & dstr & Hp & Hc & _)].
    + now left.
    + right. exists n, img, dstr. now split.
Qed.

End Handler.

(** ** The claims at the closed examples *)


(** The run of the handler on the example request. *)
Lemma example_run :
  main.analyze_try json_loads_on_examples repr_float_unused repr_str_unused
    example_request empty_world = (example_world_after, Ok example_response).
Proof. vm_compute. reflexivity. Qed.

(** The run on the answer whose location is the number 5: the response
    carries the int, the row its text. *)
Lemma numbered_run :
  main.analyze_try json_loads_numbered repr_float_unused repr_str_unused
    numbered_request empty_world = (numbered_world_after, Ok numbered_response).
Proof. vm_compute. reflexivity. Qed.

(** C1, against the claim as it is written: the refresh raises after the
    commit, the response is the error payload, and the row is in the table. *)
Lemma analyze_error_with_row_written :
  main.analyze json_loads_on_examples repr_float_unused repr_str_unused
    request_refresh_fails empty_world =
  (example_world_after,
   VDict [("analysis", VDict [("error", VStr "database is locked")])]).
Proof. vm_compute. reflexivity. Qed.

(** C1 at the request whose model client raises, and at the request whose
    refresh raises after the commit. *)
Lemma analyze_contains_exceptions_witness :
  (exists w',
      main.analyze json_loads_on_examples repr_float_unused repr_str_unused
        request_model_fails empty_world =
      (w', VDict [("analysis",
                   VDict [("error",
                           VStr (str_exn (RuntimeFailure "DeadlineExceeded"
                                            "504 Deadline Exceeded")))])]) /\
      main.analysis w' = main.analysis empty_world) /\
  (exists w',
      main.analyze json_loads_on_examples repr_float_unused repr_str_unused
        request_refresh_fails empty_world =
      (w', VDict [("analysis",
                   VDict [("error",
                           VStr (str_exn (RuntimeFailure "OperationalError"
                                            "database is locked")))])]) /\
      main.analysis w' =
        (main.analysis empty_world ++
         [main.new_entry example_normalized
            "/uploads/0f8fad5bd9cb469fa16570867728950e.jpg" "Unknown"
            (main.location_bound request_refresh_fails)
            (database.next_id (main.analysis empty_world))
            (main.utcnow request_refresh_fails)])%list).
Proof.
  split.
  - apply (proj1 (proj2 (proj2
             (analyze_contains_exceptions json_loads_on_examples repr_float_unused
                repr_str_unused request_model_fails empty_world)))
             (RuntimeFailure "DeadlineExceeded" "504 Deadline Exceeded")).
    right. exists []. split; [reflexivity|].
    right. exists ".jpg". split; [reflexivity|].
    right. split; [reflexivity|]. left. reflexivity.
  - apply (proj1 (proj2 (proj2 (proj2
             (analyze_contains_exceptions json_loads_on_examples repr_float_unused
                repr_str_unused request_refresh_fails empty_world))))
             example_normalized "/uploads/0f8fad5bd9cb469fa16570867728950e.jpg"
             "Unknown" (RuntimeFailure "OperationalError" "database is locked")).
    + exists [], ".jpg", (VDict [("raw_output", VStr "no json here")]).
      repeat split; reflexivity.
    + reflexivity.
    + reflexivity.
Defined.

(** C2 at the text with three matches. *)
Lemma extract_value_equations_witness :
  exists v1 v2,
    float_of_str "10" = Ok v1 /\ float_of_str "20" = Ok v2 /\
    main._parse_number_from_string repr_float_unused repr_str_unused (VStr "10-20-30") =
      Ok (PyFloat.div (PyFloat.add (PyFloat.add PyFloat.zero v1) v2) (PyFloat.of_Z 2)).
Proof.
  apply (proj2 (proj2 (proj2 (proj2 (proj2 (proj2
           (extract_value_equations repr_float_unused repr_str_unused))))))
           "10-20-30" "10" "20" ["30"]).
  reflexivity.
Defined.

(** C4 at a text with an object inside prose, and at a text with none. *)
Lemma decode_three_stages_witness :
  gemini_client.analyze_damage_bytes json_loads_on_examples (Ok "Sure! {} Thanks.") =
    Ok (VDict []) /\
  gemini_client.analyze_damage_bytes json_loads_on_examples (Ok "no json here") =
    Ok (VDict [("raw_output", VStr "no json here")]).
Proof.
  split.
  - apply (proj1 (proj2 (proj2
             (decode_three_stages json_loads_on_examples repr_float_unused
                repr_str_unused "Sure! {} Thanks.")))
             (JSONDecodeError "Expecting value: line 1 column 1 (char 0)") "{}" (VDict []));
      reflexivity.
  - apply (proj1 (proj2 (proj2 (proj2
             (decode_three_stages json_loads_on_examples repr_float_unused
                repr_str_unused "no json here"))))
             (JSONDecodeError "Expecting value: line 1 column 1 (char 0)"));
      [reflexivity | left; reflexivity].
Defined.

(** C6 at two entries, with a cost range and notes beside them. *)
Lemma damage_labels_collapse_witness :
  main._normalize_analysis repr_float_unused repr_str_unused
    (VDict [("damages",
             VList [VDict [("part", VStr "bumper"); ("damage_type", VStr "dent")];
                    VDict [("part", VStr "door"); ("damage_type", VStr "scratch")]]);
            ("estimated_cost", VDict [("usd", VStr "50-100")]);
            ("notes", VStr "check frame")]) =
  Ok {| main.damage_type := VList [VStr "dent (bumper)"; VStr "scratch (door)"];
        main.location := VStr "bumper, door";
        main.cost_inr := PyFloat.zero;
        main.cost_usd := PyFloat.of_Z 75;
        main.cost_yen := PyFloat.zero;
        main.notes := VStr "check frame" |}.
Proof.
  refine (proj2 (proj2 (damage_labels_collapse repr_float_unused repr_str_unused))
            [("damages",
              VList [VDict [("part", VStr "bumper"); ("damage_type", VStr "dent")];
                     VDict [("part", VStr "door"); ("damage_type", VStr "scratch")]]);
             ("estimated_cost", VDict [("usd", VStr "50-100")]);
             ("notes", VStr "check frame")]
            [("part", VStr "bumper"); ("damage_type", VStr "dent")]
            [("part", VStr "door"); ("damage_type", VStr "scratch")]
            "bumper" "dent" "door" "scratch"
            (VStr "50-100") VNone VNone (PyFloat.of_Z 75) PyFloat.zero PyFloat.zero
            _ _ _ _ _ _ _ _ _ _ _ _ _);
    try reflexivity; discriminate.
Defined.


(** C8, against the claim as it is written: the clock is set back by a
    second between two commits; the row persisted first (id 1) has the later
    timestamp and is listed first. *)
Lemma history_lists_first_persisted_first :
  database.insert (database.insert [] example_clock example_row)
                  example_clock_set_back example_row =
    [example_row 1 example_clock; example_row 2 example_clock_set_back] /\
  main.get_history [example_row 1 example_clock; example_row 2 example_clock_set_back] =
    [main.history_item (example_row 1 example_clock);
     main.history_item (example_row 2 example_clock_set_back)].
Proof. split; reflexivity. Qed.

(** C8 at two rows whose timestamps follow the order of persistence. *)
Lemma history_newest_first_witness :
  listed_before (main.history_item (example_row 2 example_clock))
                (main.history_item (example_row 1 example_clock_set_back))
                (main.get_history [example_row 1 example_clock_set_back;
                                   example_row 2 example_clock]).
Proof.
  apply (proj2 (proj2 (proj2 (proj2
           (history_newest_first [example_row 1 example_clock_set_back;
                                  example_row 2 example_clock]))))).
  - left; reflexivity.
  - right; left; reflexivity.
  - reflexivity.
Defined.

(** C9, against the claim as it is written: the notes of the response are
    neither in the row nor in the history entry. *)
Lemma notes_not_in_history :
  main.analyze json_loads_on_examples repr_float_unused repr_str_unused
    example_request empty_world = (example_world_after, example_response) /\
  get (match get (match example_response with VDict d => d | _ => [] end) "analysis" with
       | VDict d => d
       | _ => []
       end) "notes" = VStr "no json here" /\
  main.get_history (main.analysis example_world_after) =
    [[("id", VInt 1);
      ("image_path", VStr "/uploads/0f8fad5bd9cb469fa16570867728950e.jpg");
      ("damage_type", VStr "Unknown");
      ("location", VStr "");
      ("cost_inr", VFloat PyFloat.zero);
      ("cost_usd", VFloat PyFloat.zero);
      ("cost_yen", VFloat PyFloat.zero);
      ("created_at", VStr "2024-05-17T09:30:01")]].
Proof. repeat split; vm_compute; reflexivity. Qed.

(** C9 at the run of the example request. *)
Lemma persisted_record_fields_witness :
  exists row : database.Analysis,
    main.analysis
      (fst (main.analyze json_loads_on_examples repr_float_unused repr_str_unused
              example_request empty_world)) =
      (main.analysis empty_world ++ [row])%list /\
    row = {| database.id := database.next_id (main.analysis empty_world);
             database.image_path := "/uploads/0f8fad5bd9cb469fa16570867728950e.jpg";
             database.damage_type := "Unknown";
             database.location :=
               main.stored_location (main.location example_normalized ||| VStr "")
                                    (main.location_bound example_request);
             database.cost_inr := main.float_or_zero (main.cost_inr example_normalized);
             database.cost_usd := main.float_or_zero (main.cost_usd example_normalized);
             database.cost_yen := main.float_or_zero (main.cost_yen example_normalized);
             database.created_at := main.utcnow example_request |} /\
    main.damage_str (main.damage_type example_normalized) = Ok (database.damage_type row) /\
    (forall s, main.location example_normalized = VStr s -> database.location row = s) /\
    (forall z, main.location example_normalized = VInt z -> z <> 0 ->
               main.sqlite_integer z = true -> database.location row = str_of_Z z) /\
    (forall r, In r (main.analysis empty_world) -> database.id r < database.id row) /\
    In (main.history_item row)
       (main.get_history
          (main.analysis
             (fst (main.analyze json_loads_on_examples repr_float_unused repr_str_unused
                     example_request empty_world)))) /\
    keys (main.history_item row) =
      ["id"; "image_path"; "damage_type"; "location";
       "cost_inr"; "cost_usd"; "cost_yen"; "created_at"] /\
    (main.db_refresh example_request = Ok tt ->
     snd (main.analyze json_loads_on_examples repr_float_unused repr_str_unused
            example_request empty_world) =
       success_response example_normalized
         "/uploads/0f8fad5bd9cb469fa16570867728950e.jpg" /\
     get (set_item (main.normalized_dict example_normalized) "uploadedImage"
            (VStr "/uploads/0f8fad5bd9cb469fa16570867728950e.jpg"))
         "notes" = main.notes example_normalized).
Proof.
  apply (proj1 (persisted_record_fields json_loads_on_examples repr_float_unused
                  repr_str_unused example_request empty_world)
           example_normalized "/uploads/0f8fad5bd9cb469fa16570867728950e.jpg" "Unknown").
  - exists [], ".jpg", (VDict [("raw_output", VStr "no json here")]).
    repeat split; reflexivity.
  - reflexivity.
Defined.

(** * Further properties *)

(** ** The numeric extractor, further *)

Lemma binary_round_aux_sign (m e : Z) (l : location) :
  binary_round_aux PyFloat.prec PyFloat.emax true m e l =
  SFopp (binary_round_aux PyFloat.prec PyFloat.emax false m e l).
Proof.
  unfold binary_round_aux.
  destruct (shr_fexp PyFloat.prec PyFloat.emax m e l) as [mrs' e'].
  destruct (shr_fexp _ _ _ e' loc_Exact) as [mrs'' e''].
  destruct (shr_m mrs''); try reflexivity.
  destruct (_ <=? _); reflexivity.
Qed.

Lemma of_Z_opp (z : Z) : PyFloat.of_Z (- z) = SFopp (PyFloat.of_Z z) \/ z = 0.
Proof.
  destruct z as [|p|p]; [now right | left | left]; unfold PyFloat.of_Z; simpl;
    unfold binary_round; destruct (shl_align _ _ _) as [mz ez];
    rewrite binary_round_aux_sign; [reflexivity|].
  now destruct (binary_round_aux _ _ false _ _ _) as [[|]|[|]| |[|] ? ?].
Qed.

Lemma abs_opp (x : PyFloat.float) : PyFloat.abs (SFopp x) = PyFloat.abs x.
Proof. now destruct x. Qed.

Lemma remove_char_idempotent (c : ascii) (s : string) :
  remove_char c (remove_char c s) = remove_char c s.
Proof.
  induction s as [|a s IH]; simpl; [reflexivity|].
  destruct (Ascii.eqb a c) eqn:E; [exact IH|].
  simpl. now rewrite E, IH.
Qed.

Lemma has_digit_remove_comma (s : string) :
  has_digit (remove_char "," s) = has_digit s.
Proof.
  induction s as [|a s IH]; simpl; [reflexivity|].
  destruct (Ascii.eqb_spec a ",") as [->|_]; simpl; now rewrite IH.
Qed.

Lemma findall_no_digit (s : string) :
  has_digit s = false -> forall skip, re.findall_number_from skip s = [].
Proof.
  induction s as [|c s IH]; simpl; intros H skip; [reflexivity|].
  apply orb_false_iff in H as [Hc Hs].
  destruct skip as [|k]; [|exact (IH Hs k)].
  unfold re.match_number; simpl. rewrite Hc. exact (IH Hs 0%nat).
Qed.

Lemma findall_some_digit (s : string) :
  has_digit s = true -> exists m rest, re.findall_number s = m :: rest.
Proof.
  unfold re.findall_number.
  induction s as [|c s IH]; simpl; intros H; [discriminate|].
  destruct (re.match_number (String c s)) as [[m r]|] eqn:E; [eauto|].
  apply orb_true_iff in H as [Hc|Hs]; [|exact (IH Hs)].
  exfalso. unfold re.match_number in E; simpl in E. rewrite Hc in E.
  destruct (span_digits s) as [d t].
  destruct t as [|a t]; [discriminate|].
  destruct (Ascii.eqb_spec a ".") as [->|Ha].
  - destruct (span_digits t) as [[|? ?] ?]; discriminate.
  - destruct a as [[|] [|] [|] [|] [|] [|] [|] [|]]; try discriminate.
    now apply Ha.
Qed.

Section NumericExtractorFurther.

Variable repr_float : PyFloat.float -> string.
Variable repr_str : string -> string.
Local Abbreviation pystr := (str repr_float repr_str).
Local Abbreviation extract := (main._parse_number_from_string repr_float repr_str).

Lemma extract_text_sign_clear (v : value) :
  match v with VBool _ | VInt _ | VFloat _ => False | _ => True end ->
  exists x, extract v = Ok x /\ sign_clear x.
Proof.
  destruct v; intros Hv; try contradiction; simpl.
  - exists PyFloat.zero; split; [reflexivity | exact I].
  - exact (extract_text_branch _ _ eq_refl).
  - exact (extract_text_branch _ _ eq_refl).
  - exact (extract_text_branch _ _ eq_refl).
Qed.


(** X2. The sign of a number is discarded: an int and its opposite, a
    float and its opposite, give the same result (the same float, or the
    same OverflowError). *)
Theorem extract_sign_discarded :
  (forall z : Z, extract (VInt (- z)) = extract (VInt z)) /\
  (forall f : PyFloat.float, extract (VFloat (SFopp f)) = extract (VFloat f)).
Proof.
  split.
  - intros z; simpl; unfold PyFloat.of_int.
    destruct (of_Z_opp z) as [->| ->]; [|reflexivity].
    destruct (PyFloat.of_Z z) as [[|]|[|]| |[|] m e]; reflexivity.
  - intros f; simpl. now rewrite abs_opp.
Qed.

(** X3. Commas are dropped before the text is scanned, wherever they
    stand: a text and the text without its commas give the same result. *)
Theorem extract_ignores_commas (s : string) :
  extract (VStr s) = extract (VStr (remove_char "," s)).
Proof.
  unfold main._parse_number_from_string, str.
  now rewrite remove_char_idempotent.
Qed.

(** X4. An ASCII text without any of the digits 0 to 9 gives 0.0; a
    text with one of these digits has a first match, and when that match is
    the only one the result is its float. *)
Theorem extract_by_digits (s : string) :
  (is_ascii s = true -> has_digit s = false -> extract (VStr s) = Ok PyFloat.zero) /\
  (has_digit s = true ->
   exists m rest v,
     re.findall_number (remove_char "," s) = m :: rest /\
     float_of_str m = Ok v /\
     (rest = [] -> extract (VStr s) = Ok v)).
Proof.
  split; [intros _ H|intros H]; rewrite <- has_digit_remove_comma in H.
  - unfold main._parse_number_from_string, str, re.findall_number.
    now rewrite (findall_no_digit _ H).
  - destruct (findall_some_digit _ H) as (m & rest & E).
    assert (Hm : number_shaped m).
    { apply (findall_number_shaped (remove_char "," s) 0 m).
      unfold re.findall_number in E. rewrite E. now left. }
    destruct (float_of_match_ok _ Hm) as (v & Ev & _).
    exists m, rest, v. repeat split; try assumption.
    intros ->. unfold main._parse_number_from_string, str.
    rewrite E; simpl. now rewrite Ev.
Qed.

End NumericExtractorFurther.

(** ** The shape normalizer, further *)


Lemma in_read_keys (key : string) :
  existsb (String.eqb key) read_keys = true -> In key read_keys.
Proof.
  intros H. apply existsb_exists in H as (k & Hk & E).
  apply String.eqb_eq in E as ->. exact Hk.
Qed.

Section ShapeNormalizerFurther.

Variable repr_float : PyFloat.float -> string.
Variable repr_str : string -> string.
Local Abbreviation pystr := (str repr_float repr_str).
Local Abbreviation extract := (main._parse_number_from_string repr_float repr_str).
Local Abbreviation normalize := (main._normalize_analysis repr_float repr_str).

(** The normalizer reads [raw] at the keys of [read_keys] and nowhere else. *)
Lemma normalize_read_keys_ext (raw raw' : dict) :
  (forall key, In key read_keys -> get raw' key = get raw key) ->
  normalize (VDict raw') = normalize (VDict raw).
Proof.
  intros H.
  unfold main._normalize_analysis, main.collect, main.cost_raws,
    main.nested_cost_raws, main.flat_cost_raws.
  repeat match goal with
         | |- context [get raw' ?k] =>
             rewrite (H k) by (apply in_read_keys; reflexivity)
         end.
  reflexivity.
Qed.


(** What the extractor returns is a float that [float(x or 0.0)] leaves as
    it is and that is not below 0.0. *)
Lemma extract_returns (v : value) (x : PyFloat.float) :
  extract v = Ok x -> main.float_or_zero x = x /\ negative x = false.
Proof.
  intros H.
  assert (Hx : sign_clear x \/ x = S754_nan).
  { destruct v as [|b|z|f|s|l|d].
    - injection H as <-. now left.
    - injection H as <-. left. now destruct b.
    - simpl in H. unfold PyFloat.of_int in H.
      destruct (PyFloat.of_Z z) as [[|]|[|]| |[|] m e]; simpl in H;
        try discriminate; injection H as <-; simpl; auto.
    - injection H as <-. destruct f as [[|]|[|]| |[|] m e]; simpl; auto.
    - destruct (extract_text_sign_clear repr_float repr_str (VStr s) I) as (y & E & Hy).
      left. congruence.
    - destruct (extract_text_sign_clear repr_float repr_str (VList l) I) as (y & E & Hy).
      left. congruence.
    - destruct (extract_text_sign_clear repr_float repr_str (VDict d) I) as (y & E & Hy).
      left. congruence. }
  destruct Hx as [Hx| ->]; [|split; reflexivity].
  destruct x as [[|]|[|]| |[|] m e]; try contradiction; split; reflexivity.
Qed.

Lemma or_empty_default (a : value) :
  truthy (a ||| VStr EmptyString) = true \/ a ||| VStr EmptyString = VStr EmptyString.
Proof. unfold py_or. destruct (truthy a) eqn:E; auto. Qed.

Lemma str_truthy_or_empty (s : string) :
  truthy (VStr s) = true \/ VStr s = VStr EmptyString.
Proof. destruct s; simpl; auto. Qed.

(** X5. A key the normalizer does not look up has no effect on its result:
    the dict without such a key normalizes as the dict with it, wherever the
    key stands and whatever its value. *)
Theorem normalize_ignores_other_keys (raw : dict) (k : string) :
  existsb (String.eqb k) read_keys = false ->
  normalize (VDict (remove_key k raw)) = normalize (VDict raw).
Proof.
  intros Hk. apply normalize_read_keys_ext. intros key Hkey.
  apply get_remove_key_other. intros ->.
  assert (H : existsb (String.eqb key) read_keys = true)
    by (apply existsb_exists; exists key; split; [exact Hkey | apply String.eqb_refl]).
  congruence.
Qed.


(** The fields of a record the normalizer returns. *)
Lemma normalize_returns (raw : value) (n : main.normalized) :
  normalize raw = Ok n ->
  (main.float_or_zero (main.cost_usd n) = main.cost_usd n /\
   main.float_or_zero (main.cost_inr n) = main.cost_inr n /\
   main.float_or_zero (main.cost_yen n) = main.cost_yen n) /\
  (negative (main.cost_usd n) = false /\
   negative (main.cost_inr n) = false /\
   negative (main.cost_yen n) = false) /\
  (truthy (main.location n) = true \/ main.location n = VStr EmptyString) /\
  (truthy (main.notes n) = true \/ main.notes n = VStr EmptyString).
Proof.
  destruct raw as [| | | | | |raw];
    try (intros H; injection H as <-; simpl; repeat split; auto;
         apply str_truthy_or_empty).
  unfold main._normalize_analysis.
  destruct (main.collect repr_float repr_str raw) as [damage_types locations].
  destruct (main.cost_raws raw) as [[usd_raw inr_raw] jpy_raw].
  set (location_out := match locations with
                       | [] => Ok (get raw "location" ||| VStr "")
                       | _ => s <- join ", " locations ;; Ok (VStr s)
                       end).
  assert (Hloc : forall v, location_out = Ok v ->
                           truthy v = true \/ v = VStr EmptyString).
  { subst location_out; intros v. destruct locations as [|l locations].
    - intros H; injection H as <-. apply or_empty_default.
    - destruct (join ", " (l :: locations)) as [s|e]; simpl; [|discriminate].
      intros H; injection H as <-. apply str_truthy_or_empty. }
  destruct location_out as [loc|e]; simpl bind; [|discriminate].
  destruct (extract usd_raw) as [usd|e] eqn:E1; simpl; [|discriminate].
  destruct (extract inr_raw) as [inr|e] eqn:E2; simpl; [|discriminate].
  destruct (extract jpy_raw) as [yen|e] eqn:E3; simpl; [|discriminate].
  intros H; injection H as <-; simpl.
  destruct (extract_returns _ _ E1), (extract_returns _ _ E2), (extract_returns _ _ E3).
  repeat split; auto. apply or_empty_default.
Qed.

(** X7. In a record the normalizer returns no cost is below 0.0, and
    neither the location nor the notes are [None]: each of the two is a
    truthy value or the empty str. *)
Theorem normalize_returned_fields (raw : value) (n : main.normalized) :
  normalize raw = Ok n ->
  negative (main.cost_usd n) = false /\
  negative (main.cost_inr n) = false /\
  negative (main.cost_yen n) = false /\
  (truthy (main.location n) = true \/ main.location n = VStr EmptyString) /\
  (truthy (main.notes n) = true \/ main.notes n = VStr EmptyString).
Proof.
  intros H. destruct (normalize_returns _ _ H) as (_ & (H1 & H2 & H3) & Hl & Hn).
  auto.
Qed.

(** X8. A dict in which every key the normalizer looks up is absent or
    falsy gives the record of nothing: damage_type "Unknown", an empty
    location, the three costs 0.0 and empty notes. *)
Theorem normalize_nothing_to_extract (raw : dict) :
  (forall key, In key read_keys -> truthy (get raw key) = false) ->
  normalize (VDict raw) = Ok nothing_extracted.
Proof.
  intros H.
  set (seen := map (fun key => (key, get raw key)) read_keys).
  assert (Hseen : normalize (VDict raw) = normalize (VDict seen)).
  { symmetry. apply normalize_read_keys_ext. intros key Hkey.
    unfold seen, read_keys in *; simpl in Hkey.
    repeat (destruct Hkey as [<-|Hkey]; [reflexivity|]). contradiction. }
  rewrite Hseen.
  transitivity (normalize (VDict [])); [|reflexivity].
  apply normalize_falsy_eq. intros key. right. split; [|reflexivity].
  unfold seen, read_keys; cbn [map get].
  repeat match goal with
         | |- context [(?k =? key)%string] =>
             destruct (String.eqb_spec k key) as [<-|_];
             [apply H; apply in_read_keys; reflexivity|]
         end.
  reflexivity.
Qed.

(** X9. Without a damages collection the simple fields are used: a
    damage_type and a location (or part) given as non-empty strs are the
    damage type and the location of the record. *)
Theorem normalize_simple_fields (raw : dict) (dtype loc : string)
    (usd_raw inr_raw jpy_raw : value) (usd inr yen : PyFloat.float) :
  truthy (get raw "damages") = false ->
  truthy (get raw "damage") = false ->
  get raw "damage_type" = VStr dtype -> dtype <> EmptyString ->
  get raw "location" ||| get raw "part" = VStr loc -> loc <> EmptyString ->
  main.cost_raws raw = (usd_raw, inr_raw, jpy_raw) ->
  extract usd_raw = Ok usd -> extract inr_raw = Ok inr -> extract jpy_raw = Ok yen ->
  normalize (VDict raw) =
    Ok {| main.damage_type := VStr dtype;
          main.location := VStr loc;
          main.cost_inr := inr;
          main.cost_usd := usd;
          main.cost_yen := yen;
          main.notes :=
            get raw "notes" ||| get raw "note" ||| get raw "raw_output" ||| VStr "" |}.
Proof.
  intros Hd1 Hd2 Ht Htne Hl Hlne Hraws Husd Hinr Hyen.
  assert (Hdamages : get raw "damages" ||| get raw "damage" ||| VList [] = VList [])
    by (unfold py_or; now rewrite Hd1, Hd2).
  assert (Hdt : get raw "damage_type" ||| get raw "damage" = VStr dtype)
    by (unfold py_or; now rewrite Ht, (truthy_nonempty_str _ Htne)).
  unfold main._normalize_analysis, main.collect.
  rewrite Hdamages, Hdt, Hl.
  rewrite (truthy_nonempty_str _ Htne), (truthy_nonempty_str _ Hlne).
  cbn -[py_or get main.cost_raws main._parse_number_from_string append].
  rewrite Hraws, Husd, Hinr, Hyen. reflexivity.
Qed.

End ShapeNormalizerFurther.

(** ** The client, further *)

Section ClientFurther.

Variable json_loads : string -> result value.

(** X10. An object that stands inside prose is recovered: when the text
    before it has no opening brace and the text after it no closing brace,
    and the whole text is not JSON while the object is, the decode step
    returns the value of the object. *)
Theorem decode_recovers_embedded_object (pre mid post : string) (e : exn) (v : value) :
  has_char "{" pre = false ->
  has_char "}" post = false ->
  json_loads (pre ++ "{" ++ mid ++ "}" ++ post) = Raise e ->
  json_loads ("{" ++ mid ++ "}") = Ok v ->
  gemini_client.analyze_damage_bytes json_loads (Ok (pre ++ "{" ++ mid ++ "}" ++ post)) =
    Ok v.
Proof.
  intros Hpre Hpost Hwhole Hobj.
  assert (Hspan : re.search_braces (pre ++ "{" ++ mid ++ "}" ++ post)
                  = Some ("{" ++ mid ++ "}")).
  { apply search_braces_spec. exists pre, mid, post. auto. }
  cbv [gemini_client.analyze_damage_bytes bind].
  rewrite Hwhole; cbv [try_except]. rewrite Hspan, Hobj. reflexivity.
Qed.

(** X11. [analyze_image] raises only what getting the bytes or the model
    call raises: a text that is not JSON never does, and an argument of an
    unsupported type is answered without a model call. *)
Theorem analyze_image_raises_only (image : gemini_client.image_arg)
    (generate : list Byte.byte -> result string) (e : exn) :
  gemini_client.analyze_image json_loads image generate = Raise e ->
  match image with
  | gemini_client.PILImage png =>
      png = Raise e \/ exists b, png = Ok b /\ generate b = Raise e
  | gemini_client.PathStr _ file =>
      file = Raise e \/ exists b, file = Ok b /\ generate b = Raise e
  | gemini_client.BytesLike b => generate b = Raise e
  | gemini_client.OtherObject => False
  end.
Proof.
  assert (Hdecode : forall r, gemini_client.analyze_damage_bytes json_loads r = Raise e ->
                              r = Raise e).
  { intros [text|e']; unfold gemini_client.analyze_damage_bytes; simpl bind.
    - destruct (json_loads text); simpl; [discriminate|].
      destruct (re.search_braces text) as [span|]; [|discriminate].
      destruct (json_loads span); discriminate.
    - congruence. }
  destruct image as [[b|e']|path [b|e']|b|]; simpl; intros H.
  - right. exists b. split; [reflexivity | exact (Hdecode _ H)].
  - left. congruence.
  - right. exists b. split; [reflexivity | exact (Hdecode _ H)].
  - left. congruence.
  - exact (Hdecode _ H).
  - discriminate.
Qed.

End ClientFurther.

(** ** The table and the history, further *)

Lemma max_id_consecutive (n a : nat) :
  fold_right Z.max 0 (map Z.of_nat (seq a n)) =
  match n with O => 0 | S _ => Z.of_nat (a + n - 1) end.
Proof.
  revert a; induction n as [|n IH]; intros a; [reflexivity|].
  cbn [seq map fold_right]. rewrite IH. destruct n; lia.
Qed.

Lemma insert_consecutive (t : database.table) (now : database.datetime)
    (entry : Z -> database.datetime -> database.Analysis) :
  (forall i c, database.id (entry i c) = i) ->
  consecutive_ids t -> consecutive_ids (database.insert t now entry).
Proof.
  unfold consecutive_ids, database.insert, database.next_id; intros Hid Ht.
  rewrite map_app, length_app, Nat.add_comm; cbn [map List.length Nat.add].
  rewrite seq_S, map_app, Hid, Ht, max_id_consecutive; cbn [map].
  do 2 f_equal. destruct (List.length t); lia.
Qed.

Lemma insert_desc_oldest (r : database.Analysis) (l : list database.Analysis) :
  Forall (fun x => database.ltb (database.created_at r) (database.created_at x) = true) l ->
  database.insert_desc r l = (l ++ [r])%list.
Proof.
  induction 1 as [|x l Hx _ IH]; simpl; [reflexivity|].
  now rewrite (ltb_not_leb _ _ Hx), IH.
Qed.

(** X16. When each row has a later timestamp than the rows before it, the
    history is the table in reverse: the row persisted last comes first. *)
Theorem history_reverses_table (db : database.table) :
  clock_advances db ->
  main.get_history db = rev (map main.history_item db).
Proof.
  intros H. unfold main.get_history. rewrite <- map_rev. f_equal.
  induction H as [|r t _ IH Hr]; simpl; [reflexivity|].
  rewrite IH. apply insert_desc_oldest.
  apply Forall_forall; intros x Hx. apply in_rev in Hx.
  rewrite Forall_forall in Hr. exact (Hr x Hx).
Qed.

(** ** The handler of /analyze, further *)

Section HandlerFurther.

Variable json_loads : string -> result value.
Variable repr_float : PyFloat.float -> string.
Variable repr_str : string -> string.
Local Abbreviation extract := (main._parse_number_from_string repr_float repr_str).
Local Abbreviation normalize := (main._normalize_analysis repr_float repr_str).
Local Abbreviation analyze := (main.analyze json_loads repr_float repr_str).
Local Abbreviation analyze_try := (main.analyze_try json_loads repr_float repr_str).
Local Abbreviation serve := (serve json_loads repr_float repr_str).

(** The table after one request: as it was, or with one row more. *)
Lemma analyze_table_step (rq : main.request) (w : main.world) :
  main.analysis (fst (analyze rq w)) = main.analysis w \/
  exists n uploadedImage dstr,
    main.analysis (fst (analyze rq w)) =
      database.insert (main.analysis w) (main.utcnow rq)
        (main.new_entry n uploadedImage dstr (main.location_bound rq)).
Proof.
  unfold main.analyze.
  destruct (analyze_try_cases json_loads repr_float repr_str rq w)
    as [(w' & e & -> & _ & Hw)|(w' & n & img & dstr & _ & _ & Hw & ->)].
  - now left.
  - right. exists n, img, dstr. destruct (main.db_refresh rq); exact Hw.
Qed.

(** X12. The upload is written before the model is called and is not
    taken back: once the bytes are read and the file is written, the file is
    in the upload directory under the fresh name (".png" when the file name
    has no extension) whatever the later steps do.  When writing the file
    fails, the directory holds under that name what the failure left: no
    file when [open] raised, the bytes written until then otherwise.  When
    a step before it raises, the directory is as it was. *)
Theorem analyze_keeps_upload (rq : main.request) (w : main.world) :
  (forall contents ext0,
      main.file_read rq = Ok contents ->
      main.splitext_ext rq = Ok ext0 ->
      main.file_write rq = Ok tt ->
      main.uploads (fst (analyze rq w)) =
        ("uploads/" ++ main.uuid4_hex rq
           ++ (if (ext0 =? "")%string then ".png" else ext0), contents)
        :: main.uploads w) /\
  (forall contents ext0 e,
      main.file_read rq = Ok contents ->
      main.splitext_ext rq = Ok ext0 ->
      main.file_write rq = Raise e ->
      main.uploads (fst (analyze rq w)) =
        match main.file_left rq with
        | None => main.uploads w
        | Some written =>
            ("uploads/" ++ main.uuid4_hex rq
               ++ (if (ext0 =? "")%string then ".png" else ext0), written)
            :: main.uploads w
        end) /\
  (forall e,
      main.file_read rq = Raise e \/ main.splitext_ext rq = Raise e ->
      main.uploads (fst (analyze rq w)) = main.uploads w).
Proof.
  unfold main.analyze, main.analyze_try, main.and_then, main.lift, main.save_upload,
    main.add_commit, main.ret.
  split; [|split].
  - intros contents ext0 -> -> ->.
    destruct (gemini_client.analyze_damage_bytes _ _); [|reflexivity].
    destruct (normalize _) as [n|]; [|reflexivity].
    destruct (main.damage_str _); [|reflexivity].
    destruct (main.db_commit rq) as [[]|]; [|reflexivity].
    destruct (main.db_refresh rq) as [[]|]; reflexivity.
  - intros contents ext0 e -> -> ->.
    destruct (main.file_left rq); reflexivity.
  - intros e [->| ->]; [reflexivity|].
    destruct (main.file_read rq); reflexivity.
Qed.

(** X13. What a successful [analyze] stores is what it returns: the row
    has the three costs of the returned analysis unchanged (the defaults
    applied before the insert change nothing), its location when that is a
    str, the text of its digits when it is an int the engine stores and
    the text the column makes of it otherwise, its damage type when that is
    a str, and as image path the [uploadedImage] of the response, which is
    the path of the saved file after a slash. *)
Theorem analyze_row_matches_response (rq : main.request) (w w' : main.world)
    (response : value) :
  analyze_try rq w = (w', Ok response) ->
  exists (n : main.normalized) (save_path : string) (contents : list Byte.byte)
         (row : database.Analysis),
    response = success_response n ("/" ++ save_path) /\
    main.uploads w' = (save_path, contents) :: main.uploads w /\
    main.analysis w' = (main.analysis w ++ [row])%list /\
    database.image_path row = "/" ++ save_path /\
    (forall s, main.location n = VStr s -> database.location row = s) /\
    (forall z, main.location n = VInt z -> main.sqlite_integer z = true ->
               database.location row = str_of_Z z) /\
    database.location row =
      main.stored_location (main.location n) (main.location_bound rq) /\
    database.cost_inr row = main.cost_inr n /\
    database.cost_usd row = main.cost_usd n /\
    database.cost_yen row = main.cost_yen n /\
    (forall s, main.damage_type n = VStr s -> database.damage_type row = s).
Proof.
  intros H.
  destruct (analyze_try_cases json_loads repr_float repr_str rq w)
    as [(w1 & e & H1 & _)|(w1 & n & img & dstr & Hp & Hc & _ & _)];
    [rewrite H1 in H; discriminate|].
  destruct Hp as (contents & ext0 & raw & E1 & E2 & E3 & E4 & E5 & -> & E6).
  rewrite (analyze_try_committed json_loads repr_float repr_str
             rq w _ _ _ _ _ E1 E2 E3 E4 E5 E6 Hc) in H.
  destruct (main.db_refresh rq) as [u|e]; [|discriminate].
  injection H as <- <-.
  destruct (normalize_returns repr_float repr_str _ _ E5)
    as ((Hu & Hi & Hy) & _ & Hloc & _).
  assert (Hor : main.location n ||| VStr "" = main.location n)
    by (unfold py_or; destruct Hloc as [->| ->]; reflexivity).
  exists n, ("uploads/" ++ main.uuid4_hex rq
             ++ (if (ext0 =? "")%string then ".png" else ext0)), contents.
  eexists. split; [reflexivity|]. split; [reflexivity|]. split; [reflexivity|].
  cbn [database.image_path database.location database.cost_inr database.cost_usd
       database.cost_yen database.damage_type main.new_entry].
  rewrite Hor.
  repeat split; auto.
  - intros s ->. reflexivity.
  - intros z -> Hz. cbn [main.stored_location]. now rewrite Hz.
  - intros s Hs. rewrite Hs in E6. now injection E6 as <-.
Qed.

(** X14. The table is only appended to: whatever requests are served, the
    rows that were there stay as they were and in place, and each request
    adds at most one row. *)
Theorem serve_appends (rqs : list main.request) (w : main.world) :
  exists rows,
    main.analysis (serve rqs w) = (main.analysis w ++ rows)%list /\
    (List.length rows <= List.length rqs)%nat.
Proof.
  revert w; induction rqs as [|rq rqs IH]; intros w; simpl.
  - exists []. split; [now rewrite app_nil_r | auto].
  - destruct (IH (fst (analyze rq w))) as (rows & -> & Hlen).
    destruct (analyze_table_step rq w) as [->|(n & img & dstr & ->)].
    + exists rows. split; [reflexivity | lia].
    + unfold database.insert. rewrite <- app_assoc.
      eexists. split; [reflexivity|]. simpl. lia.
Qed.

(** X15. The identifiers stay 1, 2, 3, ... in the order of insertion:
    whatever requests are served, failing ones among them, on a table
    numbered so (the empty one to begin with), the table stays numbered so,
    without a gap and without a repeat. *)
Theorem serve_consecutive_ids (rqs : list main.request) (w : main.world) :
  consecutive_ids (main.analysis w) ->
  consecutive_ids (main.analysis (serve rqs w)).
Proof.
  revert w; induction rqs as [|rq rqs IH]; intros w Hw; simpl; [exact Hw|].
  apply IH.
  destruct (analyze_table_step rq w) as [->|(n & img & dstr & ->)]; [exact Hw|].
  apply insert_consecutive; [reflexivity | exact Hw].
Qed.

Lemma normalize_documented_shape (p t u i j nt : string) :
  p <> EmptyString -> t <> EmptyString ->
  normalize (documented_shape p t u i j nt) =
    (usd <- extract (VStr u) ;;
     inr <- extract (VStr i) ;;
     yen <- extract (VStr j) ;;
     Ok {| main.damage_type := VStr (t ++ " (" ++ p ++ ")");
           main.location := VStr p;
           main.cost_inr := inr;
           main.cost_usd := usd;
           main.cost_yen := yen;
           main.notes := VStr nt |}).
Proof.
  intros Hp Ht.
  assert (Hnone : forall a, extract (a ||| VNone) = extract a).
  { intros a. apply extract_falsy_eq. unfold py_or.
    destruct (truthy a) eqn:E; [now left | now right]. }
  assert (Hcosts : extract3 repr_float repr_str (main.cost_raws
             [("damages", VList [VDict [("part", VStr p); ("damage_type", VStr t)]]);
              ("estimated_cost", VDict [("usd", VStr u); ("inr", VStr i); ("jpy", VStr j)]);
              ("notes", VStr nt)])
           = (extract (VStr u), extract (VStr i), extract (VStr j))).
  { change (main.cost_raws _)
      with (main.nested_cost_raws [("usd", VStr u); ("inr", VStr i); ("jpy", VStr j)]).
    unfold extract3, main.nested_cost_raws.
    cbn -[main._parse_number_from_string py_or].
    now rewrite !Hnone. }
  unfold documented_shape.
  set (entry := [("part", VStr p); ("damage_type", VStr t)]) in *.
  set (raw := [("damages", VList [VDict entry]); _; _]) in *.
  assert (Hdamages : get raw "damages" ||| get raw "damage" ||| VList []
                     = VList [VDict entry]) by reflexivity.
  assert (Hnotes : get raw "notes" ||| get raw "note" ||| get raw "raw_output" ||| VStr ""
                   = VStr nt) by (destruct nt; reflexivity).
  unfold main._normalize_analysis, main.collect.
  rewrite Hdamages, Hnotes.
  destruct p as [|cp p]; [contradiction|]. destruct t as [|ct t]; [contradiction|].
  cbn -[main.cost_raws main._parse_number_from_string append].
  unfold extract3 in Hcosts.
  destruct (main.cost_raws raw) as [[usd_raw inr_raw] jpy_raw].
  injection Hcosts as -> -> ->.
  reflexivity.
Qed.

(** X17. End to end on the shape the prompt asks for: when the model's
    text decodes to one damage with a part and a type, an estimate with the
    three cost texts and notes, and every collaborator succeeds, [analyze]
    returns the label, the part as location, each cost as the extractor
    reads its text (never below 0.0), the notes and the image reference,
    saves the file and appends the row with the same values. *)
Theorem analyze_documented_shape (rq : main.request) (w : main.world)
    (contents : list Byte.byte) (ext0 text p t u i j nt : string) :
  main.file_read rq = Ok contents ->
  main.splitext_ext rq = Ok ext0 ->
  main.file_write rq = Ok tt ->
  main.response_text rq = Ok text ->
  json_loads text = Ok (documented_shape p t u i j nt) ->
  p <> EmptyString -> t <> EmptyString ->
  main.db_commit rq = Ok tt ->
  main.db_refresh rq = Ok tt ->
  exists usd inr yen,
    extract (VStr u) = Ok usd /\ extract (VStr i) = Ok inr /\ extract (VStr j) = Ok yen /\
    PyFloat.nonneg usd = true /\ PyFloat.nonneg inr = true /\ PyFloat.nonneg yen = true /\
    let name := main.uuid4_hex rq ++ (if (ext0 =? "")%string then ".png" else ext0) in
    analyze rq w =
      ({| main.uploads := ("uploads/" ++ name, contents) :: main.uploads w;
          main.analysis :=
            (main.analysis w ++
             [{| database.id := database.next_id (main.analysis w);
                 database.image_path := "/uploads/" ++ name;
                 database.damage_type := t ++ " (" ++ p ++ ")";
                 database.location := p;
                 database.cost_inr := inr;
                 database.cost_usd := usd;
                 database.cost_yen := yen;
                 database.created_at := main.utcnow rq |}])%list |},
       VDict [("analysis",
               VDict [("damage_type", VStr (t ++ " (" ++ p ++ ")"));
                      ("location", VStr p);
                      ("cost_inr", VFloat inr);
                      ("cost_usd", VFloat usd);
                      ("cost_yen", VFloat yen);
                      ("notes", VStr nt);
                      ("uploadedImage", VStr ("/uploads/" ++ name))])]).
Proof.
  intros H1 H2 H3 H4 H5 Hp Ht H7 H8.
  destruct (extract_text_sign_clear repr_float repr_str (VStr u) I) as (usd & Eu & Hu).
  destruct (extract_text_sign_clear repr_float repr_str (VStr i) I) as (inr & Ei & Hi).
  destruct (extract_text_sign_clear repr_float repr_str (VStr j) I) as (yen & Ej & Hj).
  exists usd, inr, yen.
  do 3 (split; [assumption|]).
  do 3 (split; [now apply sign_clear_nonneg|]).
  intros name.
  assert (Hraw : gemini_client.analyze_damage_bytes json_loads (main.response_text rq)
                 = Ok (documented_shape p t u i j nt)).
  { rewrite H4. cbv [gemini_client.analyze_damage_bytes bind]. now rewrite H5. }
  assert (Hn : normalize (documented_shape p t u i j nt) =
               Ok {| main.damage_type := VStr (t ++ " (" ++ p ++ ")");
                     main.location := VStr p;
                     main.cost_inr := inr;
                     main.cost_usd := usd;
                     main.cost_yen := yen;
                     main.notes := VStr nt |}).
  { rewrite (normalize_documented_shape _ _ _ _ _ _ Hp Ht), Eu, Ei, Ej. reflexivity. }
  unfold main.analyze.
  rewrite (analyze_try_committed json_loads repr_float repr_str
             rq w _ _ _ _ _ H1 H2 H3 Hraw Hn eq_refl H7), H8.
  unfold database.insert, main.new_entry; cbn [main.location main.cost_inr
    main.cost_usd main.cost_yen].
  destruct (extract_returns repr_float repr_str _ _ Eu) as [-> _].
  destruct (extract_returns repr_float repr_str _ _ Ei) as [-> _].
  destruct (extract_returns repr_float repr_str _ _ Ej) as [-> _].
  unfold py_or. rewrite (truthy_nonempty_str _ Hp). reflexivity.
Qed.

End HandlerFurther.

(** ** The further properties at closed examples *)

(** X4 at an ASCII text without a digit and at a text with one number. *)
Lemma extract_by_digits_witness :
  main._parse_number_from_string repr_float_unused repr_str_unused (VStr "n/a") =
    Ok PyFloat.zero /\
  exists m rest v,
    re.findall_number (remove_char "," "about 1,200 usd") = m :: rest /\
    float_of_str m = Ok v /\
    (rest = [] ->
     main._parse_number_from_string repr_float_unused repr_str_unused
       (VStr "about 1,200 usd") = Ok v).
Proof.
  split.
  - apply (proj1 (extract_by_digits repr_float_unused repr_str_unused "n/a"));
      reflexivity.
  - apply (proj2 (extract_by_digits repr_float_unused repr_str_unused "about 1,200 usd")).
    reflexivity.
Defined.

(** X5 at a key the model may add on its own. *)
Lemma normalize_ignores_other_keys_witness :
  main._normalize_analysis repr_float_unused repr_str_unused
    (VDict (remove_key "confidence"
              [("confidence", VStr "high"); ("damage_type", VStr "dent")])) =
  main._normalize_analysis repr_float_unused repr_str_unused
    (VDict [("confidence", VStr "high"); ("damage_type", VStr "dent")]).
Proof.
  apply (normalize_ignores_other_keys repr_float_unused repr_str_unused).
  reflexivity.
Defined.


(** X7 at a cost given as a negative int. *)
Lemma normalize_returned_fields_witness :
  negative (PyFloat.of_Z 5) = false /\
  negative PyFloat.zero = false /\
  negative PyFloat.zero = false /\
  (truthy (VStr "") = true \/ VStr "" = VStr EmptyString) /\
  (truthy (VStr "") = true \/ VStr "" = VStr EmptyString).
Proof.
  apply (normalize_returned_fields repr_float_unused repr_str_unused
           (VDict [("estimated_cost", VDict [("usd", VInt (-5))])])
           {| main.damage_type := VStr "Unknown";
              main.location := VStr "";
              main.cost_inr := PyFloat.zero;
              main.cost_usd := PyFloat.of_Z 5;
              main.cost_yen := PyFloat.zero;
              main.notes := VStr "" |}).
  reflexivity.
Defined.

(** X8 at a dict with an empty damages list, empty notes and a key that is
    not looked up. *)
Lemma normalize_nothing_to_extract_witness :
  main._normalize_analysis repr_float_unused repr_str_unused
    (VDict [("damages", VList []); ("notes", VStr ""); ("confidence", VInt 3)]) =
  Ok nothing_extracted.
Proof.
  apply (normalize_nothing_to_extract repr_float_unused repr_str_unused).
  intros key Hkey. unfold read_keys in Hkey; simpl in Hkey.
  repeat (destruct Hkey as [<-|Hkey]; [reflexivity|]). contradiction.
Defined.

(** X9 at a dict with the simple fields only. *)
Lemma normalize_simple_fields_witness :
  main._normalize_analysis repr_float_unused repr_str_unused
    (VDict [("damage_type", VStr "dent"); ("part", VStr "door");
            ("estimated_cost", VDict [("usd", VStr "75")])]) =
  Ok {| main.damage_type := VStr "dent";
        main.location := VStr "door";
        main.cost_inr := PyFloat.zero;
        main.cost_usd := PyFloat.of_Z 75;
        main.cost_yen := PyFloat.zero;
        main.notes := VStr "" |}.
Proof.
  refine (normalize_simple_fields repr_float_unused repr_str_unused
            [("damage_type", VStr "dent"); ("part", VStr "door");
             ("estimated_cost", VDict [("usd", VStr "75")])]
            "dent" "door" (VStr "75") VNone VNone
            (PyFloat.of_Z 75) PyFloat.zero PyFloat.zero
            _ _ _ _ _ _ _ _ _ _);
    try reflexivity; discriminate.
Defined.

(** X10 at an empty object between two pieces of prose. *)
Lemma decode_recovers_embedded_object_witness :
  gemini_client.analyze_damage_bytes json_loads_on_examples
    (Ok ("Sure! " ++ "{" ++ "" ++ "}" ++ " Thanks.")) = Ok (VDict []).
Proof.
  apply (decode_recovers_embedded_object json_loads_on_examples "Sure! " "" " Thanks."
           (JSONDecodeError "Expecting value: line 1 column 1 (char 0)") (VDict []));
    reflexivity.
Defined.

(** X11 at a path whose file cannot be read. *)
Lemma analyze_image_raises_only_witness :
  @Raise (list Byte.byte) missing_file = Raise missing_file \/
  exists b : list Byte.byte,
    @Raise (list Byte.byte) missing_file = Ok b /\
    answers_empty_object b = Raise missing_file.
Proof.
  apply (analyze_image_raises_only json_loads_on_examples
           (gemini_client.PathStr "car.png" (Raise missing_file))
           answers_empty_object missing_file).
  reflexivity.
Defined.

(** X12 at the request whose model client raises: the file is there. *)
Lemma analyze_keeps_upload_witness :
  main.uploads (fst (main.analyze json_loads_on_examples repr_float_unused repr_str_unused
                       request_model_fails empty_world)) =
  [("uploads/" ++ "0f8fad5bd9cb469fa16570867728950e" ++ ".jpg", [])].
Proof.
  apply (proj1 (analyze_keeps_upload json_loads_on_examples repr_float_unused
                  repr_str_unused request_model_fails empty_world) [] ".jpg");
    reflexivity.
Defined.

(** X13 at the run on the answer whose location is the number 5. *)
Lemma analyze_row_matches_response_witness :
  exists (n : main.normalized) (save_path : string) (contents : list Byte.byte)
         (row : database.Analysis),
    numbered_response = success_response n ("/" ++ save_path) /\
    main.uploads numbered_world_after = (save_path, contents) :: main.uploads empty_world /\
    main.analysis numbered_world_after = (main.analysis empty_world ++ [row])%list /\
    database.image_path row = "/" ++ save_path /\
    (forall s, main.location n = VStr s -> database.location row = s) /\
    (forall z, main.location n = VInt z -> main.sqlite_integer z = true ->
               database.location row = str_of_Z z) /\
    database.location row =
      main.stored_location (main.location n) (main.location_bound numbered_request) /\
    database.cost_inr row = main.cost_inr n /\
    database.cost_usd row = main.cost_usd n /\
    database.cost_yen row = main.cost_yen n /\
    (forall s, main.damage_type n = VStr s -> database.damage_type row = s).
Proof.
  apply (analyze_row_matches_response json_loads_numbered repr_float_unused
           repr_str_unused numbered_request empty_world).
  exact numbered_run.
Defined.

(** X15 at three requests on the empty table, the second one failing. *)
Lemma serve_consecutive_ids_witness :
  consecutive_ids
    (main.analysis
       (serve json_loads_on_examples repr_float_unused repr_str_unused
          [example_request; request_model_fails; example_request] empty_world)).
Proof.
  apply (serve_consecutive_ids json_loads_on_examples repr_float_unused repr_str_unused).
  reflexivity.
Defined.

(** X16 at two rows, the second one a second later. *)
Lemma history_reverses_table_witness :
  main.get_history [example_row 1 example_clock_set_back; example_row 2 example_clock] =
  rev (map main.history_item
         [example_row 1 example_clock_set_back; example_row 2 example_clock]).
Proof.
  apply history_reverses_table.
  repeat constructor.
Defined.

(** X17 at the documented text, on a file name without an extension. *)
Lemma analyze_documented_shape_witness :
  exists usd inr yen,
    main._parse_number_from_string repr_float_unused repr_str_unused (VStr "50-100")
      = Ok usd /\
    main._parse_number_from_string repr_float_unused repr_str_unused (VStr "4,000-8,000")
      = Ok inr /\
    main._parse_number_from_string repr_float_unused repr_str_unused (VStr "7500")
      = Ok yen /\
    PyFloat.nonneg usd = true /\ PyFloat.nonneg inr = true /\ PyFloat.nonneg yen = true /\
    main.analyze json_loads_documented repr_float_unused repr_str_unused
      documented_request empty_world =
      ({| main.uploads :=
            [("uploads/" ++ "0f8fad5bd9cb469fa16570867728950e" ++ ".png", [])];
          main.analysis :=
            [{| database.id := 1;
                database.image_path :=
                  "/uploads/" ++ "0f8fad5bd9cb469fa16570867728950e" ++ ".png";
                database.damage_type := "dent" ++ " (" ++ "front bumper" ++ ")";
                database.location := "front bumper";
                database.cost_inr := inr;
                database.cost_usd := usd;
                database.cost_yen := yen;
                database.created_at := example_clock |}] |},
       VDict [("analysis",
               VDict [("damage_type", VStr ("dent" ++ " (" ++ "front bumper" ++ ")"));
                      ("location", VStr "front bumper");
                      ("cost_inr", VFloat inr);
                      ("cost_usd", VFloat usd);
                      ("cost_yen", VFloat yen);
                      ("notes", VStr "check the frame");
                      ("uploadedImage",
                       VStr ("/uploads/" ++ "0f8fad5bd9cb469fa16570867728950e"
                             ++ ".png"))])]).
Proof.
  apply (analyze_documented_shape json_loads_documented repr_float_unused repr_str_unused
           documented_request empty_world [] "" documented_text
           "front bumper" "dent" "50-100" "4,000-8,000" "7500" "check the frame");
    try reflexivity; discriminate.
Defined.
